(** * The mock domain store and the mock verification workflow

    A shallow embedding of [domains-store] and [domains-mock-api]: the
    process-wide array [domainsStore.records] of domain records, its lookup
    and update helpers, and [verifyDomainMock] with its four error branches.

    Modelling choices.
    - A JavaScript string is a sequence of code units.  The model covers the
      code units U+0000..U+00FF (one [ascii] each, read as Latin-1); on that
      range [toLowerCase], [trim] and [endsWith] below are the ECMAScript
      built-ins.
    - Domain records are mutable objects and the array holds references to
      them.  The state is therefore an object heap (a [gmap] from references
      to records) together with the array of references, so that
      [existing.isVerified = true] is an update of the heap at the reference
      that [find] returned.
    - [nowIso()] and [uid()] read the clock and a random source.  The values
      they return during one call are an input of the call ([Env]).
    - [verifyDomainMock] is [async] without an [await]: its body runs in one
      piece, and the rejected promise is a [throw].  [throw] is modelled with
      the state at the point of the throw, so that what a failing call leaves
      behind can be stated. *)

From Stdlib Require Import ZArith Ascii String.
From stdpp Require Import base option list gmap strings.

Local Open Scope Z_scope.

(** ** ECMAScript string built-ins used by the store *)

Module JsString.

(** WhiteSpace and LineTerminator code units below U+0100: TAB, LF, VT, FF,
    CR, SP and NBSP. *)
Definition isWhiteSpace (c : ascii) : bool :=
  let n := Z.of_N (N_of_ascii c) in
  ((9 <=? n) && (n <=? 13)) || (n =? 32) || (n =? 160).

(** Lower-case mapping of one code unit below U+0100: A-Z and the Latin-1
    capitals U+00C0..U+00DE without the multiplication sign U+00D7. *)
Definition lowerCodeUnit (c : ascii) : ascii :=
  let n := Z.of_N (N_of_ascii c) in
  if ((65 <=? n) && (n <=? 90))
     || ((192 <=? n) && (n <=? 222) && negb (n =? 215))
  then ascii_of_N (Z.to_N (n + 32))
  else c.

Fixpoint toLowerCase (s : string) : string :=
  match s with
  | EmptyString => EmptyString
  | String c s' => String (lowerCodeUnit c) (toLowerCase s')
  end.

Fixpoint trimStart (s : string) : string :=
  match s with
  | EmptyString => EmptyString
  | String c s' => if isWhiteSpace c then trimStart s' else s
  end.

Fixpoint trimEnd (s : string) : string :=
  match s with
  | EmptyString => EmptyString
  | String c s' =>
      match trimEnd s' with
      | EmptyString => if isWhiteSpace c then EmptyString else String c EmptyString
      | t => String c t
      end
  end.

Definition trim (s : string) : string := trimEnd (trimStart s).

(** [s.endsWith(suffix)]: the last [length suffix] code units of [s] are
    [suffix]; false when [s] is shorter. *)
Definition endsWith (s suffix : string) : bool :=
  let n := String.length s in
  let m := String.length suffix in
  if (m <=? n)%nat
  then bool_decide (String.substring (n - m)%nat m s = suffix)
  else false.

(** [!s] on a string: true exactly for the empty string. *)
Definition isEmpty (s : string) : bool :=
  match s with
  | EmptyString => true
  | String _ _ => false
  end.

End JsString.

Import JsString.

(** ** Domain records and the store *)

(** [DomainRecord = Domain & { scanCount; lastScan? }].  [None] stands for
    [undefined].  [scanCount] is declared as a number, but
    [verifyDomainRecord] reads it with [?? 0], so an unset count is part of
    the model. *)
Record DomainRecord : Type := {
  id : string;
  user_id : string;
  domain_name : string;
  isVerified : bool;
  verification_token : string;
  created_at : string;
  verified_at : option string;
  scanCount : option Z;
  lastScan : option string
}.

(** References to record objects. *)
Abbreviation ref := nat.

(** [domainsStore]: the objects, and [records], the array of references. *)
Record DomainsStore : Type := {
  heap : gmap ref DomainRecord;
  records : list ref
}.

(** What [nowIso()] and [uid()] return during one call. *)
Record Env : Type := {
  nowIso : string;
  uid : string
}.

(** The [options] argument of [createDomainRecord]. *)
Record CreateOptions : Type := {
  opt_verified : option bool;
  opt_scanCount : option Z;
  opt_lastScan : option string
}.

(** The [updates] argument of [updateDomainRecord]; [None] when
    [typeof updates.domain_name] is not ["string"]. *)
Record Updates : Type := {
  upd_domain_name : option string
}.

(** An object literal or [new]: a reference that no object has yet. *)
Definition alloc (r : DomainRecord) (s : DomainsStore) : ref * DomainsStore :=
  let l := fresh (dom (heap s)) in
  (l, {| heap := <[l := r]> (heap s); records := records s |}).

Definition createDomainRecord (domainName : string) (options : CreateOptions)
    (env : Env) : DomainRecord :=
  let verified := default false (opt_verified options) in
  let scanCount0 := default 0 (opt_scanCount options) in
  let timestamp := nowIso env in
  {| id := uid env;
     user_id := "usr_123";
     domain_name := domainName;
     isVerified := verified;
     verification_token := "HYOW-VERIFY-PLACEHOLDER-XXXXXX";
     created_at := timestamp;
     verified_at := if verified then Some timestamp else None;
     scanCount := Some scanCount0;
     lastScan := opt_lastScan options |}.

(** [createInitialDomains()], given the clock readings and identifiers of its
    three [createDomainRecord] calls and of the two [lastScan: nowIso()]. *)
Definition createInitialDomains (e1 e2 e3 : Env) (ls1 ls2 : string)
    : list DomainRecord :=
  [ createDomainRecord "example.com"
      {| opt_verified := Some true; opt_scanCount := Some 5;
         opt_lastScan := Some ls1 |} e1;
    createDomainRecord "test.dev"
      {| opt_verified := Some true; opt_scanCount := Some 3;
         opt_lastScan := Some ls2 |} e2;
    createDomainRecord "staging.myapp.io"
      {| opt_verified := Some false; opt_scanCount := Some 0;
         opt_lastScan := None |} e3 ].

(** The store right after module initialisation: one object per initial
    record, referenced in order. *)
Definition initialStore (e1 e2 e3 : Env) (ls1 ls2 : string) : DomainsStore :=
  let rs := createInitialDomains e1 e2 e3 ls1 ls2 in
  {| heap := list_to_map (zip (seq 0 (length rs)) rs);
     records := seq 0 (length rs) |}.

(** The callback of [records.find] / [records.findIndex] applied to the
    object behind a reference. *)
Definition test_at (h : gmap ref DomainRecord) (p : DomainRecord -> bool)
    (l : ref) : bool :=
  match h !! l with
  | Some r => p r
  | None => false
  end.

(** [records.find(p)]: the first element that satisfies [p]. *)
Definition find (p : DomainRecord -> bool) (s : DomainsStore) : option ref :=
  snd <$> list_find (fun l => Is_true (test_at (heap s) p l)) (records s).

(** [records.findIndex(p)]: the index of the first element that satisfies
    [p], and [-1] when there is none. *)
Definition findIndex (p : DomainRecord -> bool) (s : DomainsStore) : Z :=
  match list_find (fun l => Is_true (test_at (heap s) p l)) (records s) with
  | Some (i, _) => Z.of_nat i
  | None => -1
  end.

Definition listDomains (s : DomainsStore) : list ref := records s.

Definition findDomainByName (domainName : string) (s : DomainsStore)
    : option ref :=
  find (fun domain =>
          bool_decide (toLowerCase (domain_name domain)
                       = trim (toLowerCase domainName))) s.

Definition findDomainById (domainId : string) (s : DomainsStore) : option ref :=
  find (fun domain => bool_decide (id domain = domainId)) s.

(** [upsertDomain(domain)]; [domain] is a reference to the caller's object,
    read for its [id].  A reference without an object does not occur. *)
Definition upsertDomain (domain : ref) (s : DomainsStore) : DomainsStore :=
  match heap s !! domain with
  | None => s
  | Some d =>
      let existingIndex :=
        findIndex (fun item => bool_decide (id item = id d)) s in
      if 0 <=? existingIndex
      then {| heap := heap s;
              records := <[Z.to_nat existingIndex := domain]> (records s) |}
      else {| heap := heap s; records := domain :: records s |}
  end.

(** The three assignments of the [if (existing)] branch of
    [verifyDomainRecord]. *)
Definition markVerified (timestamp : string) (r : DomainRecord) : DomainRecord :=
  {| id := id r;
     user_id := user_id r;
     domain_name := domain_name r;
     isVerified := true;
     verification_token := verification_token r;
     created_at := created_at r;
     verified_at := Some timestamp;
     scanCount := Some (default 0 (scanCount r));
     lastScan := lastScan r |}.

Definition verifyDomainRecord (domainName : string) (env : Env)
    (s : DomainsStore) : ref * DomainsStore :=
  let normalized := toLowerCase (trim domainName) in
  match find (fun domain =>
                bool_decide (toLowerCase (domain_name domain) = normalized)) s
  with
  | Some existing =>
      let timestamp := nowIso env in
      (existing,
       {| heap := alter (markVerified timestamp) existing (heap s);
          records := records s |})
  | None =>
      let '(verified, s1) :=
        alloc (createDomainRecord domainName
                 {| opt_verified := Some true; opt_scanCount := Some 0;
                    opt_lastScan := None |} env) s in
      (verified, {| heap := heap s1; records := verified :: records s1 |})
  end.

(** The three assignments of the [typeof ... === "string"] branch of
    [updateDomainRecord]. *)
Definition rename (name : string) (r : DomainRecord) : DomainRecord :=
  {| id := id r;
     user_id := user_id r;
     domain_name := name;
     isVerified := false;
     verification_token := verification_token r;
     created_at := created_at r;
     verified_at := None;
     scanCount := scanCount r;
     lastScan := lastScan r |}.

(** [updateDomainRecord]; the result [None] is [null]. *)
Definition updateDomainRecord (domainId : string) (updates : Updates)
    (s : DomainsStore) : option ref * DomainsStore :=
  match findDomainById domainId s with
  | None => (None, s)
  | Some existing =>
      match upd_domain_name updates with
      | Some name =>
          (Some existing,
           {| heap := alter (rename name) existing (heap s);
              records := records s |})
      | None => (Some existing, s)
      end
  end.

Definition removeDomainRecord (domainId : string) (s : DomainsStore)
    : bool * DomainsStore :=
  let index := findIndex (fun domain => bool_decide (id domain = domainId)) s in
  if 0 <=? index
  then (true, {| heap := heap s; records := delete (Z.to_nat index) (records s) |})
  else (false, s).

(** ** The mock API *)

(** [new ApiError(message, status, { message })]. *)
Record ApiError : Type := {
  message : string;
  status : Z;
  data_message : string
}.

(** The four errors of [verifyDomainMock], under the names of the error
    taxonomy. *)
Definition MissingDomain : ApiError :=
  {| message := "Domain is required."; status := 400;
     data_message := "Domain is required." |}.

Definition InvalidToken : ApiError :=
  {| message := "Invalid verification token."; status := 400;
     data_message := "Invalid verification token." |}.

Definition DnsVerificationFailed : ApiError :=
  {| message := "DNS verification failed. Check the TXT record and try again.";
     status := 422;
     data_message :=
       "DNS verification failed. Check the TXT record and try again." |}.

Definition AlreadyVerified : ApiError :=
  {| message := "Domain is already verified."; status := 409;
     data_message := "Domain is already verified." |}.

(** Computations over the store that may throw; a throw keeps the state it
    was raised in. *)
Definition Mock (A : Type) : Type :=
  DomainsStore -> (ApiError + A) * DomainsStore.

Definition ret {A} (a : A) : Mock A := fun s => (inr a, s).

Definition throw {A} (e : ApiError) : Mock A := fun s => (inl e, s).

Definition bind {A B} (m : Mock A) (k : A -> Mock B) : Mock B :=
  fun s =>
    match m s with
    | (inl e, s') => (inl e, s')
    | (inr a, s') => k a s'
    end.

Definition read {A} (f : DomainsStore -> A) : Mock A := fun s => (inr (f s), s).

Definition run {A} (f : DomainsStore -> A * DomainsStore) : Mock A :=
  fun s => let '(a, s') := f s in (inr a, s').

Notation "'let*' x ':=' m 'in' k" := (bind m (fun x => k))
  (at level 10, x name, m at level 100, k at level 200).

(** [existing?.isVerified] as a condition. *)
Definition isVerified_opt (existing : option ref) (s : DomainsStore) : bool :=
  match existing with
  | Some l => match heap s !! l with
              | Some r => isVerified r
              | None => false
              end
  | None => false
  end.

Definition listDomainsMock : Mock (list ref) := read listDomains.

Section DomainsMockApi.

(** The constant imported from [@/features/domains/constants]. *)
Variable DOMAIN_VERIFY_TOKEN : string.

(** [domain] is a string, so [domain?.trim() ?? ""] is [domain.trim()]. *)
Definition verifyDomainMock (domain token : string) (env : Env) : Mock ref :=
  let normalized := trim domain in
  if isEmpty normalized then throw MissingDomain
  else if negb (bool_decide (token = DOMAIN_VERIFY_TOKEN))
  then throw InvalidToken
  else if endsWith normalized ".invalid" then throw DnsVerificationFailed
  else
    let* existing := read (findDomainByName normalized) in
    let* verified := read (isVerified_opt existing) in
    if verified then throw AlreadyVerified
    else run (verifyDomainRecord normalized env).

End DomainsMockApi.



(** ** Vocabulary of the properties *)

(** [r] is the object behind the element [l] of [records]. *)
Definition stored (s : DomainsStore) (l : ref) (r : DomainRecord) : Prop :=
  l ∈ records s /\ heap s !! l = Some r.

(** Every element of [records] refers to an object. *)
Definition well_formed (s : DomainsStore) : Prop :=
  forall l : ref, l ∈ records s -> is_Some (heap s !! l).

(** [l] is the first element of [records] whose object satisfies [p]. *)
Definition first_with (p : DomainRecord -> bool) (s : DomainsStore) (l : ref)
    : Prop :=
  exists i : nat,
    records s !! i = Some l
    /\ test_at (heap s) p l = true
    /\ forall (j : nat) (l' : ref),
         records s !! j = Some l' -> (j < i)%nat -> test_at (heap s) p l' = false.

(** The comparison of [findDomainByName], on the object behind [l]. *)
Definition name_matches (domainName : string) (s : DomainsStore) (l : ref)
    : Prop :=
  exists r, heap s !! l = Some r
            /\ toLowerCase (domain_name r) = trim (toLowerCase domainName).

(** Two different objects of the store whose names agree after lower-casing
    and trimming. *)
Definition duplicate_names (s : DomainsStore) : Prop :=
  exists (l1 l2 : ref) (r1 r2 : DomainRecord),
    l1 <> l2 /\ stored s l1 r1 /\ stored s l2 r2
    /\ trim (toLowerCase (domain_name r1)) = trim (toLowerCase (domain_name r2)).

(** No two objects of the store share an [id]. *)
Definition unique_ids (s : DomainsStore) : Prop :=
  forall (l1 l2 : ref) (r1 r2 : DomainRecord),
    stored s l1 r1 -> stored s l2 r2 -> id r1 = id r2 -> l1 = l2.

(** Calls of the store's exported operations.  An upsert comes with the
    object literal that the caller passes. *)
Inductive StoreOp : Type :=
  | OpUpsert (d : DomainRecord)
  | OpVerify (domainName : string) (env : Env)
  | OpUpdate (domainId : string) (updates : Updates)
  | OpRemove (domainId : string).

Definition apply_op (op : StoreOp) (s : DomainsStore) : DomainsStore :=
  match op with
  | OpUpsert d => let '(l, s1) := alloc d s in upsertDomain l s1
  | OpVerify domainName env => snd (verifyDomainRecord domainName env s)
  | OpUpdate domainId updates => snd (updateDomainRecord domainId updates s)
  | OpRemove domainId => snd (removeDomainRecord domainId s)
  end.

Definition apply_ops (ops : list StoreOp) (s : DomainsStore) : DomainsStore :=
  foldl (fun acc op => apply_op op acc) s ops.

(** ** A concrete store for the examples *)

Definition sampleEnv (n : string) : Env :=
  {| nowIso := "2024-01-01T00:00:0" +:+ n +:+ ".000Z"; uid := "dom_" +:+ n |}.

Definition sampleStore : DomainsStore :=
  initialStore (sampleEnv "1") (sampleEnv "2") (sampleEnv "3")
    "2024-01-01T00:00:01.500Z" "2024-01-01T00:00:02.500Z".

Definition sampleToken : string := "HYOW-VERIFY-PLACEHOLDER-XXXXXX".

(** ** Invariants of the store *)

(** No stored record has the identifier [i]. *)
Definition id_unused (i : string) (s : DomainsStore) : Prop :=
  forall (l : ref) (r : DomainRecord), stored s l r -> id r <> i.

(** Every reference of [records] has its object, no reference is listed
    twice, and ids identify records. *)
Definition consistent (s : DomainsStore) : Prop :=
  well_formed s /\ NoDup (records s) /\ unique_ids s.

(** A record is verified exactly when it carries a verification timestamp. *)
Definition timestamp_agrees (r : DomainRecord) : Prop :=
  isVerified r = true <-> is_Some (verified_at r).

Definition verified_consistent (s : DomainsStore) : Prop :=
  forall (l : ref) (r : DomainRecord), stored s l r -> timestamp_agrees r.

(** What [uid()] has to deliver for ids to stay unique: when
    [verifyDomainRecord] is about to create a record, an id that no stored
    record has. *)
Definition uid_fresh (op : StoreOp) (s : DomainsStore) : Prop :=
  match op with
  | OpVerify domainName env =>
      findDomainByName domainName s = None -> id_unused (uid env) s
  | _ => True
  end.

Fixpoint uids_fresh (ops : list StoreOp) (s : DomainsStore) : Prop :=
  match ops with
  | [] => True
  | op :: ops' => uid_fresh op s /\ uids_fresh ops' (apply_op op s)
  end.

(** The object that a caller hands to [upsertDomain] has its timestamp in
    agreement with its flag. *)
Definition keeps_timestamp (op : StoreOp) : Prop :=
  match op with
  | OpUpsert d => timestamp_agrees d
  | _ => True
  end.

(** ** The mock request handlers *)

(** The JSON bodies that the handlers send. *)
Inductive JsonBody : Type :=
  | JsonDomains (domains : list DomainRecord)
  | JsonDomain (domain : DomainRecord)
  | JsonMessage (message : string).

Record HttpResponse : Type := {
  resp_status : Z;
  resp_json : JsonBody
}.

(** [HttpResponse.json(body, { status })]; the status defaults to 200. *)
Definition HttpResponse_json (body : JsonBody) (init_status : option Z)
    : HttpResponse :=
  {| resp_status := default 200 init_status; resp_json := body |}.

(** The parsed request body, [{ domain?: string; token?: string }]; [None]
    where a field is absent. *)
Record VerifyRequestBody : Type := {
  body_domain : option string;
  body_token : option string
}.

(** What serialising the array [domains] writes: the objects behind its
    references, in order. *)
Definition serialize (domains : list ref) (s : DomainsStore)
    : list DomainRecord :=
  omap (fun l => heap s !! l) domains.

Section Handlers.

Variable DOMAIN_VERIFY_TOKEN : string.

(** [http.get("/api/domains")], after its delay. *)
Definition getDomainsHandler : Mock HttpResponse :=
  let* domains := listDomainsMock in
  read (fun s => HttpResponse_json (JsonDomains (serialize domains s)) None).

(** [http.post("/api/domains/verify")], after its delay.  [body] is [None] for
    a body that parses to [null].  The errors of [verifyDomainMock] carry
    [data.message], which is the message sent.  Anything else that fails
    inside the [try], here the read of the returned object, ends in the last
    branch. *)
Definition postVerifyHandler (body : option VerifyRequestBody) (env : Env)
    (s : DomainsStore) : HttpResponse * DomainsStore :=
  match verifyDomainMock DOMAIN_VERIFY_TOKEN
          (default "" (body ≫= body_domain))
          (default "" (body ≫= body_token)) env s
  with
  | (inr domain, s') =>
      match heap s' !! domain with
      | Some d => (HttpResponse_json (JsonDomain d) None, s')
      | None =>
          (HttpResponse_json
             (JsonMessage "Verification failed. Please try again.")
             (Some 500), s')
      end
  | (inl error, s') =>
      (HttpResponse_json (JsonMessage (data_message error))
         (Some (status error)), s')
  end.

End Handlers.

(** ** The API client with its mock fallback *)

(** [env.useMocks], and whether [window] is defined. *)
Record ClientEnv : Type := {
  useMocks : bool;
  hasWindow : bool
}.

(** What [apiRequest] can throw, as far as [shouldUseMockFallback] tells
    errors apart. *)
Inductive Thrown : Type :=
  | ThrownApiError (e : ApiError)
  | ThrownTypeError
  | ThrownOther.

Definition shouldUseMockFallback (cenv : ClientEnv) (error : Thrown) : bool :=
  if negb (useMocks cenv) then false
  else if negb (hasWindow cenv) then true
  else match error with
       | ThrownApiError e => status e =? 404
       | ThrownTypeError => true
       | ThrownOther => false
       end.

(** A domain as the client receives it: the server's JSON, or the mock's own
    object. *)
Inductive DomainResult : Type :=
  | FromServer (d : DomainRecord)
  | FromMock (l : ref).

(** The mock, called from the client: its [ApiError] is what is thrown. *)
Definition viaMock {A B} (f : A -> B) (m : Mock A)
    : DomainsStore -> (Thrown + B) * DomainsStore :=
  fun s =>
    match m s with
    | (inl e, s') => (inl (ThrownApiError e), s')
    | (inr a, s') => (inr (f a), s')
    end.

Section ApiDomains.

Variable DOMAIN_VERIFY_TOKEN : string.

(** [verifyDomain(payload)]; [apiRequest] is the outcome of the request to
    [/domains/verify], with whatever it does to the store on the way. *)
Definition verifyDomain (cenv : ClientEnv)
    (apiRequest : DomainsStore -> (Thrown + DomainRecord) * DomainsStore)
    (domain token : string) (env : Env)
    (s : DomainsStore) : (Thrown + DomainResult) * DomainsStore :=
  if useMocks cenv && negb (hasWindow cenv)
  then viaMock FromMock (verifyDomainMock DOMAIN_VERIFY_TOKEN domain token env) s
  else
    match apiRequest s with
    | (inr d, s') => (inr (FromServer d), s')
    | (inl error, s') =>
        if shouldUseMockFallback cenv error
        then viaMock FromMock
               (verifyDomainMock DOMAIN_VERIFY_TOKEN domain token env) s'
        else (inl error, s')
    end.

End ApiDomains.

(** ** The domains pages *)

(** [array.findIndex(p)] on an array of values. *)
Definition findIndexOf {A} (P : A -> Prop) `{!forall x, Decision (P x)}
    (l : list A) : Z :=
  match list_find P l with
  | Some (i, _) => Z.of_nat i
  | None => -1
  end.

(** The [setQueryData] updater of the verify mutation of [DomainsList] and
    [DomainDetail]; [current] is [None] for [undefined]. *)
Definition domainsAfterVerify (domain : DomainRecord)
    (current : option (list DomainRecord)) : list DomainRecord :=
  let current := default [] current in
  let filtered :=
    filter (fun existing =>
              id existing <> id domain
              /\ domain_name existing <> domain_name domain) current in
  domain :: filtered.

(** The updater of the remove mutation of [DomainsList]. *)
Definition domainsAfterRemove (domainId : string)
    (current : option (list DomainRecord)) : list DomainRecord :=
  filter (fun domain => id domain <> domainId) (default [] current).

(** The updater of the update mutation of [DomainDetail]. *)
Definition domainsAfterUpdate (updatedDomain : DomainRecord)
    (current : option (list DomainRecord)) : list DomainRecord :=
  let current := default [] current in
  let existingIndex :=
    findIndexOf (fun item => id item = id updatedDomain) current in
  if 0 <=? existingIndex
  then <[Z.to_nat existingIndex := updatedDomain]> current
  else updatedDomain :: current.

(** [totalDomains], [verifiedCount] and [pendingCount] of [DomainsList]. *)
Definition totalDomains (domains : list DomainRecord) : Z :=
  Z.of_nat (length domains).

Definition verifiedCount (domains : list DomainRecord) : Z :=
  Z.of_nat (length (filter (fun domain => isVerified domain = true) domains)).

Definition pendingCount (domains : list DomainRecord) : Z :=
  totalDomains domains - verifiedCount domains.

(** The state of the add-domain dialog of [DomainsList]. *)
Inductive ModalStep : Type := StepDomain | StepDns.

Record ModalState : Type := {
  modalStep : ModalStep;
  domainInput : string;
  acknowledged : bool;
  errorMessage : option string
}.

Definition setErrorMessage (message : option string) (st : ModalState)
    : ModalState :=
  {| modalStep := modalStep st; domainInput := domainInput st;
     acknowledged := acknowledged st; errorMessage := message |}.

(** [handleDomainContinue] of the [DomainsList] page whose dialog takes the
    name as typed, without a pattern for domain names.  [domains] is the
    cached list.  [resetVerifyDomain()] clears the status of the mutation,
    which is not part of this state. *)
Definition handleDomainContinue (domains : list DomainRecord)
    (st : ModalState) : ModalState :=
  let value := trim (domainInput st) in
  if isEmpty value then setErrorMessage (Some "Please enter a domain.") st
  else
    let normalized := toLowerCase value in
    let existing :=
      List.find (fun domain =>
                   bool_decide (toLowerCase (domain_name domain) = normalized))
        domains in
    if match existing with
       | Some d => isVerified d
       | None => false
       end
    then setErrorMessage (Some "This domain is already verified.") st
    else {| modalStep := StepDns; domainInput := domainInput st;
            acknowledged := false; errorMessage := None |}.

Section DomainsList.

Variable DOMAIN_VERIFY_TOKEN : string.

(** [handleVerifyDomain] of the same page: the new state and the payload
    handed to [runVerifyDomain], if any. *)
Definition handleVerifyDomain (st : ModalState)
    : ModalState * option (string * string) :=
  let value := trim (domainInput st) in
  if isEmpty value
  then (setErrorMessage (Some "Please enter a domain.") st, None)
  else (setErrorMessage None st, Some (value, DOMAIN_VERIFY_TOKEN)).

End DomainsList.

(** ** The header *)

(** The fields of the profile that the header reads; [None] for [undefined]
    or [null]. *)
Record ProfileResponse : Type := {
  display_name : option string;
  first_name : option string;
  last_name : option string;
  email : option string
}.

(** [a || b] where [a] is a string or [undefined]. *)
Definition or_else (a : option string) (b : string) : string :=
  match a with
  | Some (String c s) => String c s
  | _ => b
  end.

(** [pieces.filter(Boolean)]. *)
Definition filter_Boolean (pieces : list (option string)) : list string :=
  omap (fun piece =>
          match piece with
          | Some (String c s) => Some (String c s)
          | _ => None
          end) pieces.

(** [pieces.join(sep)]. *)
Fixpoint join (sep : string) (pieces : list string) : string :=
  match pieces with
  | [] => ""
  | [piece] => piece
  | piece :: rest => piece +:+ sep +:+ join sep rest
  end.

(** [displayName] of [Header]. *)
Definition displayName (profile : option ProfileResponse)
    (isAppRoute isFetching : bool) : string :=
  match profile with
  | None => if isAppRoute && isFetching then "Loading..." else "Guest"
  | Some profile =>
      or_else (trim <$> display_name profile)
        (or_else
           (Some (trim (join " " (filter_Boolean
                                    [first_name profile; last_name profile]))))
           (or_else (email profile) "User"))
  end.

(** ** The profile page *)

(** [/[...]/.test(s)] for a class of single code units. *)
Fixpoint test_class (p : ascii -> bool) (s : string) : bool :=
  match s with
  | EmptyString => false
  | String c s' => p c || test_class p s'
  end.

Definition in_range (lo hi : Z) (c : ascii) : bool :=
  let n := Z.of_N (N_of_ascii c) in (lo <=? n) && (n <=? hi).

Definition isUpperAZ (c : ascii) : bool := in_range 65 90 c.
Definition isLowerAZ (c : ascii) : bool := in_range 97 122 c.
Definition isDigit (c : ascii) : bool := in_range 48 57 c.

Definition calculatePasswordStrength (password : string) : Z :=
  let score := 0 in
  let score := if (8 <=? String.length password)%nat then score + 1 else score in
  let score := if test_class isUpperAZ password then score + 1 else score in
  let score := if test_class isLowerAZ password then score + 1 else score in
  let score := if test_class isDigit password then score + 1 else score in
  let score :=
    if test_class (fun c => negb (isUpperAZ c || isLowerAZ c || isDigit c))
         password
    then score + 1 else score in
  score.

Definition strengthLabel (score : Z) : string :=
  if score <=? 2 then "Weak"
  else if score =? 3 then "Okay"
  else "Strong".

Definition COMMON_TIMEZONES : list string :=
  [ "UTC"; "America/New_York"; "America/Chicago"; "America/Denver";
    "America/Los_Angeles"; "Europe/London"; "Europe/Berlin"; "Europe/Paris";
    "Asia/Singapore"; "Asia/Tokyo"; "Australia/Sydney" ].

(** [Array.from(new Set(values))]: the values in order of first occurrence;
    [seen] holds what the set has already. *)
Fixpoint set_values (seen : list string) (values : list string) : list string :=
  match values with
  | [] => []
  | v :: rest =>
      if bool_decide (v ∈ seen) then set_values seen rest
      else v :: set_values (v :: seen) rest
  end.

(** [getInitialTimezones(profileTz)]; [detected] is what [detectTimezone()]
    returns. *)
Definition getInitialTimezones (profileTz : option string) (detected : string)
    : list string :=
  let tz := default detected profileTz in
  set_values [] (tz :: COMMON_TIMEZONES).

(** ** More concrete values for the examples *)

Definition sampleDomain : DomainRecord :=
  {| id := "dom_9"; user_id := "usr_123"; domain_name := "shop.io";
     isVerified := false;
     verification_token := "HYOW-VERIFY-PLACEHOLDER-XXXXXX";
     created_at := "2024-01-01T00:00:09.000Z"; verified_at := None;
     scanCount := Some 0; lastScan := None |}.

Definition sampleOps : list StoreOp :=
  [ OpVerify "blog.example.com" (sampleEnv "4");
    OpUpsert sampleDomain;
    OpUpdate "dom_2" {| upd_domain_name := Some "test.example" |};
    OpRemove "dom_1" ].

Definition sampleClient : ClientEnv :=
  {| useMocks := true; hasWindow := true |}.

Definition sampleModal : ModalState :=
  {| modalStep := StepDomain; domainInput := " Shop.io ";
     acknowledged := true; errorMessage := None |}.

(** * Properties *)

Example toLowerCase_ex : toLowerCase "  Example.COM " = "  example.com ".
Proof. reflexivity. Qed.

Example trim_ex : trim "  Example.COM " = "Example.COM".
Proof. reflexivity. Qed.

Example endsWith_ex : endsWith "foo.invalid" ".invalid" = true
                      /\ endsWith "foo.INVALID" ".invalid" = false
                      /\ endsWith "id" ".invalid" = false.
Proof. repeat split; reflexivity. Qed.

(** ** String built-ins *)

Lemma isWhiteSpace_lowerCodeUnit (c : ascii) :
  isWhiteSpace (lowerCodeUnit c) = isWhiteSpace c.
Proof. destruct c as [[] [] [] [] [] [] [] []]; reflexivity. Qed.

Lemma trimStart_toLowerCase (s : string) :
  trimStart (toLowerCase s) = toLowerCase (trimStart s).
Proof.
  induction s as [|c s IH]; simpl; [reflexivity|].
  rewrite isWhiteSpace_lowerCodeUnit.
  destruct (isWhiteSpace c); [exact IH | reflexivity].
Qed.

Lemma trimEnd_toLowerCase (s : string) :
  trimEnd (toLowerCase s) = toLowerCase (trimEnd s).
Proof.
  induction s as [|c s IH]; simpl; [reflexivity|].
  rewrite IH, isWhiteSpace_lowerCodeUnit.
  destruct (trimEnd s); simpl; [|reflexivity].
  destruct (isWhiteSpace c); reflexivity.
Qed.

(** Lower-casing neither creates nor removes white space at the ends. *)
Lemma trim_toLowerCase (s : string) :
  trim (toLowerCase s) = toLowerCase (trim s).
Proof.
  unfold trim. rewrite trimStart_toLowerCase. apply trimEnd_toLowerCase.
Qed.

Lemma isEmpty_true (s : string) : isEmpty s = true <-> s = "".
Proof. destruct s; simpl; split; congruence. Qed.

Lemma isEmpty_false (s : string) : isEmpty s = false <-> s <> "".
Proof. destruct s; simpl; split; congruence. Qed.

(** ** [find] *)

Lemma find_Some (p : DomainRecord -> bool) (s : DomainsStore) (l : ref) :
  find p s = Some l <-> first_with p s l.
Proof.
  unfold find, first_with. rewrite fmap_Some. split.
  - intros ([i l'] & Hfind & ->). apply list_find_Some in Hfind.
    destruct Hfind as (Hi & Hp & Hlt). exists i. simpl.
    split; [exact Hi|]. split; [by apply Is_true_true|].
    intros j l'' Hj Hji. specialize (Hlt j l'' Hj Hji).
    by apply Is_true_false.
  - intros (i & Hi & Hp & Hlt). exists (i, l). split; [|reflexivity].
    apply list_find_Some. split; [exact Hi|]. split; [by apply Is_true_true|].
    intros j l' Hj Hji. rewrite (Hlt j l' Hj Hji). simpl. tauto.
Qed.

Lemma find_None (p : DomainRecord -> bool) (s : DomainsStore) :
  find p s = None <-> forall l : ref, l ∈ records s -> test_at (heap s) p l = false.
Proof.
  unfold find. rewrite fmap_None, list_find_None, Forall_forall. split.
  - intros H l Hl. specialize (H l Hl). by apply Is_true_false.
  - intros H l Hl. rewrite (H l Hl). simpl. tauto.
Qed.

Lemma find_Some_stored (p : DomainRecord -> bool) (s : DomainsStore) (l : ref) :
  find p s = Some l -> exists r, stored s l r /\ p r = true.
Proof.
  intros (i & Hi & Hp & _)%find_Some. unfold test_at in Hp.
  destruct (heap s !! l) as [r|] eqn:Hr; [|discriminate].
  exists r. repeat split; [|exact Hr|exact Hp].
  apply list_elem_of_lookup. by exists i.
Qed.

Lemma test_at_name (domainName : string) (s : DomainsStore) (l : ref) :
  test_at (heap s)
    (fun domain => bool_decide (toLowerCase (domain_name domain)
                                = trim (toLowerCase domainName))) l = true
  <-> name_matches domainName s l.
Proof.
  unfold test_at, name_matches. destruct (heap s !! l) as [r|].
  - rewrite bool_decide_eq_true. split; [eauto|]. by intros (r' & [= <-] & H).
  - split; [discriminate|]. by intros (r' & [=] & _).
Qed.

(** ** References stay valid *)

Lemma initialStore_well_formed (e1 e2 e3 : Env) (ls1 ls2 : string) :
  well_formed (initialStore e1 e2 e3 ls1 ls2).
Proof.
  intros l Hl. apply list_elem_of_In in Hl. simpl in Hl.
  destruct Hl as [<-|[<-|[<-|[]]]]; vm_compute; eauto.
Qed.

Lemma alloc_well_formed (r : DomainRecord) (s : DomainsStore) :
  well_formed s ->
  well_formed (snd (alloc r s)) /\ heap (snd (alloc r s)) !! fst (alloc r s) = Some r.
Proof.
  intros Hwf. simpl. split; [|apply lookup_insert_eq].
  intros l Hl. simpl in *. rewrite lookup_insert_is_Some.
  destruct (decide (fresh (dom (heap s)) = l)); auto.
Qed.

Lemma upsertDomain_well_formed (domain : ref) (s : DomainsStore) :
  well_formed s -> well_formed (upsertDomain domain s).
Proof.
  intros Hwf. unfold upsertDomain.
  destruct (heap s !! domain) as [d|] eqn:Hd; [|exact Hwf].
  destruct (0 <=? _); intros l Hl; simpl in *.
  - apply list_elem_of_lookup in Hl as [i Hi].
    destruct (decide (i = Z.to_nat
                (findIndex (fun item => bool_decide (id item = id d)) s)))
      as [->|Hne].
    + apply list_lookup_insert_Some in Hi as [(_ & <- & _)|[[] _]]; eauto.
    + rewrite list_lookup_insert_ne in Hi by done.
      apply Hwf, list_elem_of_lookup. eauto.
  - apply elem_of_cons in Hl as [->|Hl]; eauto.
Qed.

Lemma verifyDomainRecord_well_formed (domainName : string) (env : Env)
    (s : DomainsStore) :
  well_formed s -> well_formed (snd (verifyDomainRecord domainName env s)).
Proof.
  intros Hwf. unfold verifyDomainRecord.
  destruct (find _ s); intros l Hl; simpl in *.
  - rewrite lookup_alter_is_Some. by apply Hwf.
  - rewrite lookup_insert_is_Some.
    apply elem_of_cons in Hl as [->|Hl]; [by left|].
    destruct (decide (fresh (dom (heap s)) = l)); auto.
Qed.

Lemma updateDomainRecord_well_formed (domainId : string) (updates : Updates)
    (s : DomainsStore) :
  well_formed s -> well_formed (snd (updateDomainRecord domainId updates s)).
Proof.
  intros Hwf. unfold updateDomainRecord.
  destruct (findDomainById domainId s); [|exact Hwf].
  destruct (upd_domain_name updates); [|exact Hwf].
  intros l Hl. simpl in *. rewrite lookup_alter_is_Some. by apply Hwf.
Qed.

Lemma removeDomainRecord_well_formed (domainId : string) (s : DomainsStore) :
  well_formed s -> well_formed (snd (removeDomainRecord domainId s)).
Proof.
  intros Hwf. unfold removeDomainRecord.
  destruct (0 <=? _); [|exact Hwf].
  intros l Hl. simpl in *. by eapply Hwf, list_elem_of_delete_inv.
Qed.

(** No sequence of store operations leaves a dangling reference in
    [records]: the [None] branches of [test_at] and [upsertDomain] are never
    taken from the initial store on. *)
Lemma apply_ops_well_formed (ops : list StoreOp) (s : DomainsStore) :
  well_formed s -> well_formed (apply_ops ops s).
Proof.
  unfold apply_ops. revert s.
  induction ops as [|op ops IH]; intros s Hwf; simpl; [exact Hwf|].
  apply IH. destruct op as [d|domainName env|domainId updates|domainId]; simpl.
  - apply upsertDomain_well_formed. by apply (alloc_well_formed d s).
  - by apply verifyDomainRecord_well_formed.
  - by apply updateDomainRecord_well_formed.
  - by apply removeDomainRecord_well_formed.
Qed.

(** ** [findDomainByName] *)

(** C1, as amended.  [findDomainByName] returns the first element of
    [records] whose stored name, lower-cased but not trimmed, equals the
    query lower-cased and trimmed; it returns [undefined] exactly when no
    element of [records] has such a name. *)
Theorem findDomainByName_first_match (domainName : string) (s : DomainsStore) :
  (forall l : ref,
     findDomainByName domainName s = Some l
     <-> exists i : nat,
           records s !! i = Some l
           /\ name_matches domainName s l
           /\ forall (j : nat) (l' : ref),
                records s !! j = Some l' -> (j < i)%nat ->
                ~ name_matches domainName s l')
  /\ (findDomainByName domainName s = None
      <-> forall l : ref, l ∈ records s -> ~ name_matches domainName s l).
Proof.
  split.
  - intros l. unfold findDomainByName. rewrite find_Some. unfold first_with.
    split; intros (i & Hi & Hp & Hlt); exists i; (split; [exact Hi|]).
    + split; [by apply test_at_name|].
      intros j l' Hj Hji Hm%test_at_name. rewrite (Hlt j l' Hj Hji) in Hm.
      discriminate.
    + split; [by apply test_at_name|].
      intros j l' Hj Hji. apply not_true_is_false.
      rewrite test_at_name. by apply Hlt with j.
  - unfold findDomainByName. rewrite find_None.
    split; intros H l Hl.
    + intros Hm%test_at_name. rewrite (H l Hl) in Hm. discriminate.
    + apply not_true_is_false. rewrite test_at_name. by apply H.
Qed.

(** C1, as stated, fails.  After
    [updateDomainRecord("dom_1", { domain_name: "example.com " })] the first
    record is stored under a name with a trailing blank: it equals the query
    ["example.com"] once both are lower-cased and trimmed, and yet
    [findDomainByName("example.com")] does not return it. *)
Lemma findDomainByName_stored_name_untrimmed :
  let s := apply_ops
             [OpUpdate "dom_1" {| upd_domain_name := Some "example.com " |}]
             sampleStore in
  exists r : DomainRecord,
    stored s 0%nat r
    /\ trim (toLowerCase (domain_name r)) = trim (toLowerCase "example.com")
    /\ findDomainByName "example.com" s = None.
Proof.
  eexists. split; [split|split].
  - apply list_elem_of_In. left. reflexivity.
  - vm_compute. reflexivity.
  - vm_compute. reflexivity.
  - vm_compute. reflexivity.
Qed.

(** ** [verifyDomainRecord] *)

Lemma verifyDomainRecord_lookup (domainName : string) (s : DomainsStore) :
  find (fun domain =>
          bool_decide (toLowerCase (domain_name domain)
                       = toLowerCase (trim domainName))) s
  = findDomainByName domainName s.
Proof. unfold findDomainByName. by rewrite trim_toLowerCase. Qed.

(** The two branches of [verifyDomainRecord], by the record that
    [findDomainByName] returns for the same name. *)
Lemma verifyDomainRecord_found (domainName : string) (env : Env)
    (s : DomainsStore) (l : ref) :
  findDomainByName domainName s = Some l ->
  verifyDomainRecord domainName env s
  = (l, {| heap := alter (markVerified (nowIso env)) l (heap s);
           records := records s |}).
Proof.
  intros Hfind. unfold verifyDomainRecord.
  by rewrite verifyDomainRecord_lookup, Hfind.
Qed.

Lemma verifyDomainRecord_not_found (domainName : string) (env : Env)
    (s : DomainsStore) :
  findDomainByName domainName s = None ->
  verifyDomainRecord domainName env s
  = let l := fresh (dom (heap s)) in
    (l, {| heap := <[l := createDomainRecord domainName
                             {| opt_verified := Some true;
                                opt_scanCount := Some 0;
                                opt_lastScan := None |} env]> (heap s);
           records := l :: records s |}).
Proof.
  intros Hfind. unfold verifyDomainRecord.
  by rewrite verifyDomainRecord_lookup, Hfind.
Qed.

(** C10.  When the name matches a stored record, [verifyDomainRecord]
    returns the matching record [l] that the lookup finds and changes nothing
    but that object's [isVerified], [verified_at] and, if it was unset,
    [scanCount]: its [id], [user_id], [domain_name], [verification_token],
    [created_at] and [lastScan], every other object, and [records] (order
    and length) are as before. *)
Theorem verifyDomainRecord_existing_frame (domainName : string) (env : Env)
    (s : DomainsStore) (l0 : ref) (r0 : DomainRecord) :
  stored s l0 r0 ->
  toLowerCase (domain_name r0) = toLowerCase (trim domainName) ->
  exists (l : ref) (r r' : DomainRecord) (s' : DomainsStore),
    verifyDomainRecord domainName env s = (l, s')
    /\ findDomainByName domainName s = Some l
    /\ stored s l r
    /\ toLowerCase (domain_name r) = toLowerCase (trim domainName)
    /\ heap s' !! l = Some r'
    /\ isVerified r' = true
    /\ verified_at r' = Some (nowIso env)
    /\ scanCount r' = match scanCount r with
                      | Some n => Some n
                      | None => Some 0
                      end
    /\ id r' = id r
    /\ user_id r' = user_id r
    /\ domain_name r' = domain_name r
    /\ verification_token r' = verification_token r
    /\ created_at r' = created_at r
    /\ lastScan r' = lastScan r
    /\ (forall l' : ref, l' <> l -> heap s' !! l' = heap s !! l')
    /\ records s' = records s.
Proof.
  intros [Hin Hr0] Hname.
  destruct (findDomainByName domainName s) as [l|] eqn:Hfind.
  - pose proof Hfind as (r & Hst & Hp)%find_Some_stored.
    apply bool_decide_eq_true in Hp. rewrite trim_toLowerCase in Hp.
    rewrite (verifyDomainRecord_found _ env _ _ Hfind).
    exists l, r, (markVerified (nowIso env) r). eexists.
    split; [reflexivity|]. split; [reflexivity|].
    split; [exact Hst|]. split; [exact Hp|].
    simpl. rewrite lookup_alter_eq, (proj2 Hst). simpl.
    split; [reflexivity|]. split; [reflexivity|]. split; [reflexivity|].
    split; [by destruct (scanCount r)|].
    do 6 (split; [reflexivity|]).
    split; [|reflexivity].
    intros l' Hl'. by rewrite lookup_alter_ne.
  - exfalso. unfold findDomainByName in Hfind.
    pose proof (proj1 (find_None _ _) Hfind l0 Hin) as Hno.
    apply not_true_iff_false in Hno. apply Hno, test_at_name.
    exists r0. split; [exact Hr0|]. by rewrite trim_toLowerCase.
Qed.

(** ** [updateDomainRecord] *)

Lemma findDomainById_unique (s : DomainsStore) (l : ref) (r : DomainRecord) :
  unique_ids s -> stored s l r -> findDomainById (id r) s = Some l.
Proof.
  intros Huniq Hst. unfold findDomainById.
  destruct (find _ s) as [l'|] eqn:Hfind.
  - pose proof Hfind as (r' & Hst' & Hp)%find_Some_stored.
    apply bool_decide_eq_true in Hp.
    by rewrite (Huniq l' l r' r Hst' Hst Hp).
  - pose proof (proj1 (find_None _ _) Hfind l (proj1 Hst)) as Hno.
    unfold test_at in Hno. rewrite (proj2 Hst) in Hno.
    by apply bool_decide_eq_false in Hno.
Qed.

(** C7.  For the record that has the given id, a call that supplies a
    [domain_name] string, be it the current name, sets [isVerified] to false
    and clears [verified_at]: this holds of the record that the lookup by id
    resolves, which is every stored record when ids identify records.  When
    no record has the given id the call returns [null]. *)
Theorem updateDomainRecord_resets_verification (domainId name : string)
    (s : DomainsStore) :
  (forall (l : ref) (r : DomainRecord),
     findDomainById domainId s = Some l ->
     heap s !! l = Some r ->
     exists (r' : DomainRecord) (s' : DomainsStore),
       updateDomainRecord domainId {| upd_domain_name := Some name |} s
       = (Some l, s')
       /\ heap s' !! l = Some r'
       /\ domain_name r' = name
       /\ isVerified r' = false
       /\ verified_at r' = None)
  /\ (unique_ids s ->
      forall (l : ref) (r : DomainRecord),
        stored s l r ->
        id r = domainId ->
        exists (r' : DomainRecord) (s' : DomainsStore),
          updateDomainRecord domainId {| upd_domain_name := Some name |} s
          = (Some l, s')
          /\ heap s' !! l = Some r'
          /\ domain_name r' = name
          /\ isVerified r' = false
          /\ verified_at r' = None)
  /\ ((forall (l : ref) (r : DomainRecord), stored s l r -> id r <> domainId) ->
      forall updates : Updates,
        updateDomainRecord domainId updates s = (None, s)).
Proof.
  assert (forall (l : ref) (r : DomainRecord),
            findDomainById domainId s = Some l ->
            heap s !! l = Some r ->
            exists (r' : DomainRecord) (s' : DomainsStore),
              updateDomainRecord domainId {| upd_domain_name := Some name |} s
              = (Some l, s')
              /\ heap s' !! l = Some r'
              /\ domain_name r' = name
              /\ isVerified r' = false
              /\ verified_at r' = None) as Hreset.
  { intros l r Hfind Hr. unfold updateDomainRecord. rewrite Hfind. simpl.
    eexists _, _. split; [reflexivity|]. simpl.
    rewrite lookup_alter_eq, Hr. simpl. by repeat split. }
  split; [exact Hreset|]. split.
  - intros Huniq l r Hst <-.
    apply (Hreset l r); [by apply findDomainById_unique | exact (proj2 Hst)].
  - intros Hnone updates. unfold updateDomainRecord.
    replace (findDomainById domainId s) with (@None ref); [reflexivity|].
    symmetry. apply find_None. intros l Hl. unfold test_at.
    destruct (heap s !! l) as [r|] eqn:Hr; [|reflexivity].
    apply bool_decide_eq_false. by apply (Hnone l r).
Qed.

(** ** Name uniqueness *)

(** C8.  Names are not kept unique.  The initial store has no two records
    with the same normalised name; one [upsertDomain] of an object with a new
    id, or one [updateDomainRecord] that renames a record to a name already
    present, gives a store that has two. *)
Theorem name_uniqueness_not_invariant :
  ~ duplicate_names sampleStore
  /\ (exists d : DomainRecord,
        (forall l r, stored sampleStore l r -> id r <> id d)
        /\ duplicate_names (apply_ops [OpUpsert d] sampleStore))
  /\ (exists domainId name : string,
        duplicate_names
          (apply_ops [OpUpdate domainId {| upd_domain_name := Some name |}]
             sampleStore)).
Proof.
  assert (forall l r, stored sampleStore l r ->
            (l = 0 \/ l = 1 \/ l = 2)%nat
            /\ heap sampleStore !! l = Some r) as Hcases.
  { intros l r [Hl Hr]. split; [|exact Hr].
    apply list_elem_of_In in Hl. vm_compute in Hl. intuition. }
  split; [|split].
  - intros (l1 & l2 & r1 & r2 & Hne & H1 & H2 & Heq).
    apply Hcases in H1 as [Hl1 Hr1]. apply Hcases in H2 as [Hl2 Hr2].
    destruct Hl1 as [->|[->| ->]], Hl2 as [->|[->| ->]];
      try (by destruct Hne);
      vm_compute in Hr1, Hr2;
      injection Hr1 as <-; injection Hr2 as <-;
      vm_compute in Heq; discriminate Heq.
  - exists {| id := "dom_9"; user_id := "usr_123";
              domain_name := " Example.COM"; isVerified := false;
              verification_token := "HYOW-VERIFY-PLACEHOLDER-XXXXXX";
              created_at := "2024-01-01T00:00:09.000Z"; verified_at := None;
              scanCount := Some 0; lastScan := None |}.
    split.
    + intros l r [Hl Hr]%Hcases.
      destruct Hl as [->|[->| ->]]; vm_compute in Hr;
        injection Hr as <-; vm_compute; discriminate.
    + exists 3%nat, 0%nat. eexists _, _.
      split; [discriminate|].
      split; [split|split; [split|]];
        [apply list_elem_of_In; vm_compute; tauto | vm_compute; reflexivity
        | apply list_elem_of_In; vm_compute; tauto | vm_compute; reflexivity
        | vm_compute; reflexivity].
  - exists "dom_3", "test.dev". exists 1%nat, 2%nat. eexists _, _.
    split; [discriminate|].
    split; [split|split; [split|]];
      [apply list_elem_of_In; vm_compute; tauto | vm_compute; reflexivity
      | apply list_elem_of_In; vm_compute; tauto | vm_compute; reflexivity
      | vm_compute; reflexivity].
Qed.

(** ** [verifyDomainMock] *)

Section VerifyDomainMock.

Variable DOMAIN_VERIFY_TOKEN : string.

(** Past the three guards, the call is decided by the lookup. *)
Lemma verifyDomainMock_after_guards (domain token : string) (env : Env)
    (s : DomainsStore) :
  trim domain <> "" ->
  token = DOMAIN_VERIFY_TOKEN ->
  endsWith (trim domain) ".invalid" = false ->
  verifyDomainMock DOMAIN_VERIFY_TOKEN domain token env s
  = if isVerified_opt (findDomainByName (trim domain) s) s
    then (inl AlreadyVerified, s)
    else run (verifyDomainRecord (trim domain) env) s.
Proof.
  intros Hne Htok Hsuf. unfold verifyDomainMock.
  apply isEmpty_false in Hne. rewrite Hne, Hsuf.
  rewrite (bool_decide_eq_true_2 _ Htok). simpl.
  unfold bind, read. simpl.
  by destruct (isVerified_opt _ _).
Qed.

(** C3.  A name that is empty after trimming fails with [MissingDomain],
    status 400, whatever the token is, and in particular for a wrong
    token. *)
Theorem verifyDomainMock_missing_domain (domain token : string) (env : Env)
    (s : DomainsStore) :
  trim domain = "" ->
  verifyDomainMock DOMAIN_VERIFY_TOKEN domain token env s = (inl MissingDomain, s)
  /\ status MissingDomain = 400.
Proof.
  intros Hempty. split; [|reflexivity].
  unfold verifyDomainMock. by rewrite Hempty.
Qed.

(** C4.  A non-empty trimmed name with a token other than the expected one
    fails with [InvalidToken], status 400, whatever the name is. *)
Theorem verifyDomainMock_invalid_token (domain token : string) (env : Env)
    (s : DomainsStore) :
  trim domain <> "" ->
  token <> DOMAIN_VERIFY_TOKEN ->
  verifyDomainMock DOMAIN_VERIFY_TOKEN domain token env s = (inl InvalidToken, s)
  /\ status InvalidToken = 400.
Proof.
  intros Hne Htok. split; [|reflexivity].
  unfold verifyDomainMock.
  apply isEmpty_false in Hne. rewrite Hne.
  by rewrite (bool_decide_eq_false_2 _ Htok).
Qed.

(** C5.  With the expected token, a non-empty trimmed name that ends in
    [.invalid] fails with [DnsVerificationFailed], status 422. *)
Theorem verifyDomainMock_dns_failure (domain token : string) (env : Env)
    (s : DomainsStore) :
  token = DOMAIN_VERIFY_TOKEN ->
  trim domain <> "" ->
  endsWith (trim domain) ".invalid" = true ->
  verifyDomainMock DOMAIN_VERIFY_TOKEN domain token env s = (inl DnsVerificationFailed, s)
  /\ status DnsVerificationFailed = 422.
Proof.
  intros Htok Hne Hsuf. split; [|reflexivity].
  unfold verifyDomainMock.
  apply isEmpty_false in Hne. rewrite Hne, Hsuf.
  by rewrite (bool_decide_eq_true_2 _ Htok).
Qed.

(** C6.  With the expected token and a non-empty trimmed name that does not
    end in [.invalid], the call fails with [AlreadyVerified], status 409,
    when [findDomainByName] finds a record whose [isVerified] is true. *)
Theorem verifyDomainMock_already_verified (domain token : string) (env : Env)
    (s : DomainsStore) (l : ref) (r : DomainRecord) :
  token = DOMAIN_VERIFY_TOKEN ->
  trim domain <> "" ->
  endsWith (trim domain) ".invalid" = false ->
  findDomainByName (trim domain) s = Some l ->
  heap s !! l = Some r ->
  isVerified r = true ->
  verifyDomainMock DOMAIN_VERIFY_TOKEN domain token env s = (inl AlreadyVerified, s)
  /\ status AlreadyVerified = 409.
Proof.
  intros Htok Hne Hsuf Hfind Hr Hver. split; [|reflexivity].
  rewrite verifyDomainMock_after_guards by assumption.
  rewrite Hfind. simpl. by rewrite Hr, Hver.
Qed.

(** C9.  A call that throws leaves the store as it found it, and what it
    throws is one of the four errors. *)
Theorem verifyDomainMock_error_keeps_store (domain token : string)
    (env : Env) (s s' : DomainsStore) (e : ApiError) :
  verifyDomainMock DOMAIN_VERIFY_TOKEN domain token env s = (inl e, s') ->
  s' = s
  /\ (e = MissingDomain \/ e = InvalidToken
      \/ e = DnsVerificationFailed \/ e = AlreadyVerified).
Proof.
  unfold verifyDomainMock.
  destruct (isEmpty (trim domain)).
  { intros [= <- <-]. auto. }
  destruct (bool_decide (token = DOMAIN_VERIFY_TOKEN)); simpl.
  2: { intros [= <- <-]. auto. }
  destruct (endsWith (trim domain) ".invalid").
  { intros [= <- <-]. auto. }
  unfold bind, read. simpl.
  destruct (isVerified_opt _ _).
  { intros [= <- <-]. auto 6. }
  unfold run. destruct (verifyDomainRecord _ _ _). discriminate.
Qed.

(** C2.  With a non-empty trimmed name, the expected token and no
    [.invalid] suffix: when no record matches the name, one new object is
    created with [isVerified = true] and [verified_at] set to the
    timestamp, its reference is put at the front of [records] (one element
    more, every earlier object as it was) and returned; when the matching
    record exists and is not verified, that object is updated in place and
    [records] is left alone. *)
Theorem verifyDomainMock_creates_or_updates (domain token : string)
    (env : Env) (s : DomainsStore) :
  trim domain <> "" ->
  token = DOMAIN_VERIFY_TOKEN ->
  endsWith (trim domain) ".invalid" = false ->
  (findDomainByName (trim domain) s = None ->
   exists (l : ref) (r : DomainRecord) (s' : DomainsStore),
     verifyDomainMock DOMAIN_VERIFY_TOKEN domain token env s = (inr l, s')
     /\ heap s !! l = None
     /\ heap s' !! l = Some r
     /\ domain_name r = trim domain
     /\ isVerified r = true
     /\ verified_at r = Some (nowIso env)
     /\ records s' = l :: records s
     /\ length (records s') = S (length (records s))
     /\ dom (heap s') = {[l]} ∪ dom (heap s)
     /\ forall l' : ref, l' <> l -> heap s' !! l' = heap s !! l')
  /\ (forall (l : ref) (r : DomainRecord),
        findDomainByName (trim domain) s = Some l ->
        heap s !! l = Some r ->
        isVerified r = false ->
        exists (r' : DomainRecord) (s' : DomainsStore),
          verifyDomainMock DOMAIN_VERIFY_TOKEN domain token env s = (inr l, s')
          /\ heap s' !! l = Some r'
          /\ domain_name r' = domain_name r
          /\ isVerified r' = true
          /\ verified_at r' = Some (nowIso env)
          /\ records s' = records s
          /\ dom (heap s') = dom (heap s)
          /\ forall l' : ref, l' <> l -> heap s' !! l' = heap s !! l').
Proof.
  intros Hne Htok Hsuf. split.
  - intros Hfind.
    rewrite verifyDomainMock_after_guards by assumption.
    rewrite Hfind. simpl. unfold run.
    rewrite (verifyDomainRecord_not_found _ _ _ Hfind). simpl.
    set (l := fresh (dom (heap s))).
    assert (heap s !! l = None) as Hl
      by (apply not_elem_of_dom, is_fresh).
    eexists l, _, _. split; [reflexivity|]. simpl.
    split; [exact Hl|]. rewrite lookup_insert_eq.
    split; [reflexivity|]. do 5 (split; [reflexivity|]).
    split; [apply dom_insert_L|].
    intros l' Hl'. by rewrite lookup_insert_ne.
  - intros l r Hfind Hr Hver.
    rewrite verifyDomainMock_after_guards by assumption.
    rewrite Hfind. simpl. rewrite Hr, Hver. unfold run.
    rewrite (verifyDomainRecord_found _ _ _ _ Hfind). simpl.
    eexists _, _. split; [reflexivity|]. simpl.
    rewrite lookup_alter_eq, Hr. simpl.
    split; [reflexivity|]. do 4 (split; [reflexivity|]).
    split; [apply dom_alter_L|].
    intros l' Hl'. by rewrite lookup_alter_ne.
Qed.

End VerifyDomainMock.

(** ** The properties at concrete calls *)

Lemma findDomainByName_first_match_witness :
  findDomainByName " EXAMPLE.com " sampleStore = Some 0%nat
  /\ exists i : nat,
       records sampleStore !! i = Some 0%nat
       /\ name_matches " EXAMPLE.com " sampleStore 0%nat
       /\ forall (j : nat) (l' : ref),
            records sampleStore !! j = Some l' -> (j < i)%nat ->
            ~ name_matches " EXAMPLE.com " sampleStore l'.
Proof.
  assert (findDomainByName " EXAMPLE.com " sampleStore = Some 0%nat) as H
    by (vm_compute; reflexivity).
  split; [exact H|].
  exact (proj1 (proj1 (findDomainByName_first_match " EXAMPLE.com " sampleStore)
                  0%nat) H).
Defined.

Lemma verifyDomainMock_missing_domain_witness :
  trim "   " = ""
  /\ verifyDomainMock sampleToken "   " "wrong-token" (sampleEnv "4") sampleStore
     = (inl MissingDomain, sampleStore)
  /\ status MissingDomain = 400.
Proof.
  split; [reflexivity|].
  apply verifyDomainMock_missing_domain. reflexivity.
Defined.

Lemma verifyDomainMock_invalid_token_witness :
  trim " example.com " <> ""
  /\ "wrong-token" <> sampleToken
  /\ verifyDomainMock sampleToken " example.com " "wrong-token" (sampleEnv "4")
       sampleStore
     = (inl InvalidToken, sampleStore)
  /\ status InvalidToken = 400.
Proof.
  assert (trim " example.com " <> "") as Hne by (vm_compute; discriminate).
  assert ("wrong-token" <> sampleToken) as Htok by (vm_compute; discriminate).
  split; [exact Hne|]. split; [exact Htok|].
  apply verifyDomainMock_invalid_token; assumption.
Defined.

Lemma verifyDomainMock_dns_failure_witness :
  trim " shop.invalid " <> ""
  /\ endsWith (trim " shop.invalid ") ".invalid" = true
  /\ verifyDomainMock sampleToken " shop.invalid " sampleToken (sampleEnv "4")
       sampleStore
     = (inl DnsVerificationFailed, sampleStore)
  /\ status DnsVerificationFailed = 422.
Proof.
  assert (trim " shop.invalid " <> "") as Hne by (vm_compute; discriminate).
  split; [exact Hne|]. split; [reflexivity|].
  apply verifyDomainMock_dns_failure; [reflexivity | exact Hne | reflexivity].
Defined.

Lemma verifyDomainMock_already_verified_witness :
  findDomainByName (trim " Example.com ") sampleStore = Some 0%nat
  /\ verifyDomainMock sampleToken " Example.com " sampleToken (sampleEnv "4")
       sampleStore
     = (inl AlreadyVerified, sampleStore)
  /\ status AlreadyVerified = 409.
Proof.
  assert (findDomainByName (trim " Example.com ") sampleStore = Some 0%nat)
    as Hfind by (vm_compute; reflexivity).
  split; [exact Hfind|].
  eapply verifyDomainMock_already_verified;
    [reflexivity | vm_compute; discriminate | reflexivity | exact Hfind
    | vm_compute; reflexivity | reflexivity].
Defined.

Lemma verifyDomainMock_error_keeps_store_witness :
  exists (e : ApiError) (s' : DomainsStore),
    verifyDomainMock sampleToken " Example.com " sampleToken (sampleEnv "4")
      sampleStore = (inl e, s')
    /\ s' = sampleStore
    /\ (e = MissingDomain \/ e = InvalidToken
        \/ e = DnsVerificationFailed \/ e = AlreadyVerified).
Proof.
  exists AlreadyVerified, sampleStore.
  assert (verifyDomainMock sampleToken " Example.com " sampleToken
            (sampleEnv "4") sampleStore = (inl AlreadyVerified, sampleStore))
    as Hrun by (vm_compute; reflexivity).
  split; [exact Hrun|].
  exact (verifyDomainMock_error_keeps_store sampleToken _ _ _ _ _ _ Hrun).
Defined.

Lemma verifyDomainMock_creates_or_updates_witness :
  (exists (l : ref) (s' : DomainsStore),
     verifyDomainMock sampleToken " Shop.io " sampleToken (sampleEnv "4")
       sampleStore = (inr l, s')
     /\ heap sampleStore !! l = None
     /\ records s' = l :: records sampleStore)
  /\ (exists (r' : DomainRecord) (s' : DomainsStore),
        verifyDomainMock sampleToken "STAGING.myapp.io" sampleToken
          (sampleEnv "4") sampleStore = (inr 2%nat, s')
        /\ heap s' !! 2%nat = Some r'
        /\ isVerified r' = true
        /\ records s' = records sampleStore).
Proof.
  split.
  - destruct (verifyDomainMock_creates_or_updates sampleToken " Shop.io "
                sampleToken (sampleEnv "4") sampleStore) as [Hnew _];
      [vm_compute; discriminate | reflexivity | reflexivity |].
    destruct Hnew as (l & r & s' & Hrun & Hl & _ & _ & _ & _ & Hrec & _);
      [vm_compute; reflexivity|].
    exists l, s'. split; [exact Hrun|]. split; [exact Hl | exact Hrec].
  - destruct (verifyDomainMock_creates_or_updates sampleToken
                "STAGING.myapp.io" sampleToken (sampleEnv "4") sampleStore)
      as [_ Hupd];
      [vm_compute; discriminate | reflexivity | reflexivity |].
    edestruct (Hupd 2%nat) as (r' & s' & Hrun & Hr' & _ & Hver & _ & Hrec & _);
      [vm_compute; reflexivity | vm_compute; reflexivity | reflexivity |].
    exists r', s'. split; [exact Hrun|]. split; [exact Hr'|].
    split; [exact Hver | exact Hrec].
Defined.

Lemma verifyDomainRecord_existing_frame_witness :
  exists (l : ref) (r' : DomainRecord) (s' : DomainsStore),
    verifyDomainRecord " Staging.MyApp.io " (sampleEnv "4") sampleStore = (l, s')
    /\ heap s' !! l = Some r'
    /\ isVerified r' = true
    /\ verified_at r' = Some (nowIso (sampleEnv "4"))
    /\ (forall l' : ref, l' <> l -> heap s' !! l' = heap sampleStore !! l')
    /\ records s' = records sampleStore.
Proof.
  edestruct (verifyDomainRecord_existing_frame " Staging.MyApp.io "
               (sampleEnv "4") sampleStore 2%nat)
    as (l & r & r' & s' & Hrun & _ & _ & _ & Hr' & Hver & Hat & _ & _ & _ & _
        & _ & _ & _ & Hframe & Hrec).
  - split; [apply list_elem_of_In; vm_compute; tauto | vm_compute; reflexivity].
  - vm_compute. reflexivity.
  - exists l, r', s'. repeat (split; [assumption|]). assumption.
Defined.

Lemma updateDomainRecord_resets_verification_witness :
  (exists (r' : DomainRecord) (s' : DomainsStore),
     updateDomainRecord "dom_1" {| upd_domain_name := Some "example.com" |}
       sampleStore = (Some 0%nat, s')
     /\ heap s' !! 0%nat = Some r'
     /\ domain_name r' = "example.com"
     /\ isVerified r' = false
     /\ verified_at r' = None)
  /\ unique_ids sampleStore
  /\ updateDomainRecord "dom_7" {| upd_domain_name := Some "example.com" |}
       sampleStore = (None, sampleStore).
Proof.
  assert (forall l r, stored sampleStore l r ->
            (l = 0 \/ l = 1 \/ l = 2)%nat
            /\ heap sampleStore !! l = Some r) as Hcases.
  { intros l r [Hl Hr]. split; [|exact Hr].
    apply list_elem_of_In in Hl. vm_compute in Hl. intuition. }
  assert (unique_ids sampleStore) as Huniq.
  { intros l1 l2 r1 r2 [Hl1 Hr1]%Hcases [Hl2 Hr2]%Hcases Hid.
    destruct Hl1 as [->|[->| ->]], Hl2 as [->|[->| ->]];
      try reflexivity;
      vm_compute in Hr1, Hr2;
      injection Hr1 as <-; injection Hr2 as <-;
      vm_compute in Hid; discriminate Hid. }
  split; [|split; [exact Huniq|]].
  - eapply (proj1 (proj2 (updateDomainRecord_resets_verification
                            "dom_1" "example.com" sampleStore)) Huniq).
    + split; [apply list_elem_of_In; vm_compute; tauto | vm_compute; reflexivity].
    + reflexivity.
  - apply (proj2 (proj2 (updateDomainRecord_resets_verification
                           "dom_7" "example.com" sampleStore))).
    intros l r [Hl Hr]%Hcases.
    destruct Hl as [->|[->| ->]]; vm_compute in Hr;
      injection Hr as <-; vm_compute; discriminate.
Defined.

(** * Further properties of the store, the mock and their callers *)

(** ** More on the string built-ins *)

Lemma toLowerCase_length (s : string) :
  String.length (toLowerCase s) = String.length s.
Proof. induction s as [|c s IH]; simpl; congruence. Qed.

Lemma lowerCodeUnit_idem (c : ascii) :
  lowerCodeUnit (lowerCodeUnit c) = lowerCodeUnit c.
Proof. destruct c as [[] [] [] [] [] [] [] []]; reflexivity. Qed.

Lemma toLowerCase_idem (s : string) :
  toLowerCase (toLowerCase s) = toLowerCase s.
Proof.
  induction s as [|c s IH]; simpl; [reflexivity|].
  by rewrite lowerCodeUnit_idem, IH.
Qed.

Lemma trimStart_head (s : string) (c : ascii) (t : string) :
  trimStart s = String c t -> isWhiteSpace c = false.
Proof.
  induction s as [|c' s IH]; simpl; [discriminate|].
  destruct (isWhiteSpace c') eqn:Hc'; [exact IH|].
  by intros [= <- _].
Qed.

Lemma trimStart_length (s : string) :
  (String.length (trimStart s) <= String.length s)%nat.
Proof.
  induction s as [|c s IH]; simpl; [lia|].
  destruct (isWhiteSpace c); simpl; lia.
Qed.

Lemma trimStart_fixed (s : string) :
  String.length (trimStart s) = String.length s -> trimStart s = s.
Proof.
  destruct s as [|c s]; simpl; [reflexivity|].
  destruct (isWhiteSpace c); [|reflexivity].
  pose proof (trimStart_length s). lia.
Qed.

Lemma trimEnd_length (s : string) :
  (String.length (trimEnd s) <= String.length s)%nat.
Proof.
  induction s as [|c s IH]; simpl; [lia|].
  destruct (trimEnd s); simpl in *; [destruct (isWhiteSpace c); simpl; lia | lia].
Qed.

Lemma trimEnd_fixed (s : string) :
  String.length (trimEnd s) = String.length s -> trimEnd s = s.
Proof.
  induction s as [|c s IH]; simpl; [reflexivity|].
  pose proof (trimEnd_length s) as Hle.
  destruct (trimEnd s) as [|c' t] eqn:Ht; simpl in *.
  - destruct (isWhiteSpace c); simpl; [lia|].
    intros Hlen. destruct s; [reflexivity | simpl in Hlen; lia].
  - intros Hlen. rewrite IH by lia. reflexivity.
Qed.

Lemma trimEnd_idem (s : string) : trimEnd (trimEnd s) = trimEnd s.
Proof.
  induction s as [|c s IH]; simpl; [reflexivity|].
  destruct (trimEnd s) as [|c' t] eqn:Ht.
  - destruct (isWhiteSpace c) eqn:Hc; simpl; [reflexivity|]. by rewrite Hc.
  - change (trimEnd (String c (String c' t))) with
      (match trimEnd (String c' t) with
       | EmptyString => if isWhiteSpace c then EmptyString else String c EmptyString
       | t0 => String c t0
       end).
    by rewrite IH.
Qed.

Lemma trimStart_trimEnd (s : string) :
  trimStart s = s -> trimStart (trimEnd s) = trimEnd s.
Proof.
  destruct s as [|c s]; [reflexivity|]. intros Hs.
  apply trimStart_head in Hs as Hc.
  simpl. destruct (trimEnd s); rewrite ?Hc; simpl; by rewrite Hc.
Qed.

Lemma trimStart_idem (s : string) : trimStart (trimStart s) = trimStart s.
Proof.
  induction s as [|c s IH]; simpl; [reflexivity|].
  destruct (isWhiteSpace c) eqn:Hc; [exact IH|]. simpl. by rewrite Hc.
Qed.

Lemma trim_idem (s : string) : trim (trim s) = trim s.
Proof.
  unfold trim. rewrite trimStart_trimEnd by apply trimStart_idem.
  apply trimEnd_idem.
Qed.

Lemma trim_length (s : string) :
  (String.length (trim s) <= String.length s)%nat.
Proof.
  unfold trim. pose proof (trimEnd_length (trimStart s)).
  pose proof (trimStart_length s). lia.
Qed.

Lemma trim_fixed (s : string) :
  String.length (trim s) = String.length s -> trim s = s.
Proof.
  unfold trim. intros Hlen.
  pose proof (trimEnd_length (trimStart s)). pose proof (trimStart_length s).
  rewrite trimEnd_fixed by lia. apply trimStart_fixed. lia.
Qed.

Lemma toLowerCase_trim_fixed (s : string) :
  toLowerCase s = toLowerCase (trim s) -> trim s = s.
Proof.
  intros H. apply trim_fixed.
  rewrite <- (toLowerCase_length (trim s)), <- H. apply toLowerCase_length.
Qed.

(** ** [find] and [findIndex] *)

Lemma findIndex_cases (p : DomainRecord -> bool) (s : DomainsStore) :
  (findIndex p s = -1 /\ find p s = None)
  \/ exists (i : nat) (l : ref),
       findIndex p s = Z.of_nat i /\ find p s = Some l
       /\ records s !! i = Some l
       /\ test_at (heap s) p l = true
       /\ forall (j : nat) (l' : ref),
            records s !! j = Some l' -> (j < i)%nat ->
            test_at (heap s) p l' = false.
Proof.
  unfold findIndex, find.
  destruct (list_find _ (records s)) as [[i l]|] eqn:Hfind; [right|left; done].
  exists i, l. split; [reflexivity|]. split; [reflexivity|].
  apply list_find_Some in Hfind as (Hi & Hp & Hlt).
  split; [exact Hi|]. split; [by apply Is_true_true|].
  intros j l' Hj Hji. apply Is_true_false. by apply (Hlt j l').
Qed.

Lemma findDomainById_None (i : string) (s : DomainsStore) :
  findDomainById i s = None <-> id_unused i s.
Proof.
  unfold findDomainById, id_unused. rewrite find_None. split.
  - intros H l r [Hl Hr] Hid. specialize (H l Hl). unfold test_at in H.
    rewrite Hr in H. by apply bool_decide_eq_false in H.
  - intros H l Hl. unfold test_at.
    destruct (heap s !! l) as [r|] eqn:Hr; [|reflexivity].
    apply bool_decide_eq_false. by apply (H l r).
Qed.

Lemma findDomainById_Some (i : string) (s : DomainsStore) (l : ref) :
  findDomainById i s = Some l -> exists r, stored s l r /\ id r = i.
Proof.
  intros (r & Hst & Hp)%find_Some_stored. apply bool_decide_eq_true in Hp. eauto.
Qed.

(** A callback that reads only fields that [f] keeps sees the same store
    after [f] has been applied to one object. *)
Lemma find_alter (p : DomainRecord -> bool) (f : DomainRecord -> DomainRecord)
    (l : ref) (s : DomainsStore) :
  (forall r, p (f r) = p r) ->
  find p {| heap := alter f l (heap s); records := records s |} = find p s.
Proof.
  intros Hpf. unfold find. simpl. f_equal. apply list_find_ext. intros l'.
  unfold test_at.
  destruct (decide (l = l')) as [->|Hne].
  - rewrite lookup_alter_eq. destruct (heap s !! l'); simpl; by rewrite ?Hpf.
  - by rewrite lookup_alter_ne.
Qed.

Lemma find_cons_new (p : DomainRecord -> bool) (s : DomainsStore) (l : ref)
    (r : DomainRecord) :
  heap s !! l = None ->
  find p {| heap := <[l := r]> (heap s); records := l :: records s |}
  = if p r then Some l else find p s.
Proof.
  intros Hl. unfold find. simpl.
  assert (test_at (<[l := r]> (heap s)) p l = p r) as Hhead.
  { unfold test_at. by rewrite lookup_insert_eq. }
  destruct (p r) eqn:Hp.
  - rewrite decide_True by (rewrite Hhead; exact I). reflexivity.
  - rewrite decide_False by (rewrite Hhead; intros []).
    rewrite <- option_fmap_compose.
    rewrite (list_find_ext _ (fun l' => Is_true (test_at (heap s) p l'))).
    + by destruct (list_find _ (records s)) as [[??]|].
    + intros l'. unfold test_at. destruct (decide (l = l')) as [<-|Hne].
      * rewrite lookup_insert_eq, Hl, Hp. reflexivity.
      * by rewrite lookup_insert_ne.
Qed.

(** ** [upsertDomain] *)

Lemma upsertDomain_findDomainById (domain : ref) (d : DomainRecord)
    (s : DomainsStore) :
  heap s !! domain = Some d ->
  findDomainById (id d) (upsertDomain domain s) = Some domain.
Proof.
  intros Hd. unfold upsertDomain. rewrite Hd.
  destruct (findIndex_cases (fun item => bool_decide (id item = id d)) s)
    as [[-> _]|(i & l & -> & _ & Hi & _ & Hlt)].
  - simpl. apply find_Some. exists 0%nat. simpl.
    split; [reflexivity|]. split; [|intros; lia].
    unfold test_at. rewrite Hd. by apply bool_decide_eq_true.
  - replace (0 <=? Z.of_nat i) with true by (symmetry; apply Z.leb_le; lia).
    rewrite Nat2Z.id. apply find_Some. exists i. simpl.
    split; [apply list_lookup_insert_eq; by eapply lookup_lt_Some|].
    split; [unfold test_at; rewrite Hd; by apply bool_decide_eq_true|].
    intros j l' Hj Hji. rewrite list_lookup_insert_ne in Hj by lia.
    by apply (Hlt j l').
Qed.

Lemma upsertDomain_records (domain : ref) (d : DomainRecord)
    (s : DomainsStore) :
  heap s !! domain = Some d ->
  heap (upsertDomain domain s) = heap s
  /\ (id_unused (id d) s ->
      records (upsertDomain domain s) = domain :: records s)
  /\ (forall l : ref,
        findDomainById (id d) s = Some l ->
        exists i : nat,
          records s !! i = Some l
          /\ records (upsertDomain domain s) = <[i := domain]> (records s)
          /\ length (records (upsertDomain domain s)) = length (records s)).
Proof.
  intros Hd. unfold upsertDomain. rewrite Hd.
  destruct (findIndex_cases (fun item => bool_decide (id item = id d)) s)
    as [[-> Hnone]|(i & l & -> & Hsome & Hi & _ & _)].
  - simpl. split; [reflexivity|]. split; [reflexivity|].
    intros l Hl. unfold findDomainById in Hl. congruence.
  - replace (0 <=? Z.of_nat i) with true by (symmetry; apply Z.leb_le; lia).
    rewrite Nat2Z.id. simpl. split; [reflexivity|]. split.
    + intros Hunused%findDomainById_None. unfold findDomainById in Hunused.
      congruence.
    + intros l' Hl'. unfold findDomainById in Hl'.
      assert (l' = l) as -> by congruence.
      exists i. split; [exact Hi|]. split; [reflexivity|]. apply length_insert.
Qed.

(** X1.  After [upsertDomain(domain)], [findDomainById(domain.id)] returns the
    upserted object; the objects themselves are untouched, and the array
    keeps its length when a record with that id was stored and is one longer
    otherwise. *)
Theorem upsertDomain_then_findDomainById (domain : ref) (d : DomainRecord)
    (s : DomainsStore) :
  heap s !! domain = Some d ->
  findDomainById (id d) (upsertDomain domain s) = Some domain
  /\ heap (upsertDomain domain s) = heap s
  /\ length (records (upsertDomain domain s))
     = match findDomainById (id d) s with
       | Some _ => length (records s)
       | None => S (length (records s))
       end.
Proof.
  intros Hd.
  destruct (upsertDomain_records domain d s Hd) as (Hheap & Hnew & Hrepl).
  split; [by apply upsertDomain_findDomainById|]. split; [exact Hheap|].
  destruct (findDomainById (id d) s) as [l|] eqn:Hfind.
  - by destruct (Hrepl l eq_refl) as (i & _ & _ & Hlen).
  - apply findDomainById_None in Hfind. by rewrite (Hnew Hfind).
Qed.

(** ** [removeDomainRecord] *)

Lemma stored_alter (f : DomainRecord -> DomainRecord) (l : ref)
    (s : DomainsStore) (l' : ref) (r' : DomainRecord) :
  stored {| heap := alter f l (heap s); records := records s |} l' r'
  <-> exists r, stored s l' r /\ r' = if decide (l = l') then f r else r.
Proof.
  unfold stored. simpl. destruct (decide (l = l')) as [->|Hne].
  - rewrite lookup_alter_eq, fmap_Some. split.
    + intros (Hl & r & Hr & ->). by exists r.
    + intros (r & [Hl Hr] & ->). split; [exact Hl|]. by exists r.
  - rewrite lookup_alter_ne by done. split.
    + intros [Hl Hr]. by exists r'.
    + by intros (r & Hst & ->).
Qed.

Lemma removeDomainRecord_cases (domainId : string) (s : DomainsStore) :
  (findDomainById domainId s = None
   /\ removeDomainRecord domainId s = (false, s))
  \/ exists (i : nat) (l : ref),
       findDomainById domainId s = Some l
       /\ records s !! i = Some l
       /\ (forall (j : nat) (l' : ref),
             records s !! j = Some l' -> (j < i)%nat ->
             test_at (heap s) (fun domain => bool_decide (id domain = domainId)) l'
             = false)
       /\ removeDomainRecord domainId s
          = (true, {| heap := heap s; records := delete i (records s) |}).
Proof.
  unfold removeDomainRecord, findDomainById.
  destruct (findIndex_cases (fun domain => bool_decide (id domain = domainId)) s)
    as [[-> Hnone]|(i & l & -> & Hsome & Hi & _ & Hlt)].
  - left. by split.
  - right. exists i, l.
    replace (0 <=? Z.of_nat i) with true by (symmetry; apply Z.leb_le; lia).
    by rewrite Nat2Z.id.
Qed.

Lemma elem_of_delete_NoDup (rs : list ref) (i : nat) (x y : ref) :
  NoDup rs -> rs !! i = Some x ->
  y ∈ delete i rs <-> y ∈ rs /\ y <> x.
Proof.
  intros Hnd Hi. rewrite !list_elem_of_lookup. split.
  - intros [j Hj]. rewrite list_lookup_delete in Hj. split; [eauto|].
    intros ->. pose proof (NoDup_lookup rs _ _ x Hnd Hi Hj) as Heq.
    case_decide; lia.
  - intros [[j Hj] Hne].
    assert (j <> i) by (intros ->; congruence).
    destruct (decide (j < i)%nat).
    + exists j. rewrite list_lookup_delete. by rewrite decide_True.
    + exists (pred j). rewrite list_lookup_delete.
      rewrite decide_False by lia. by replace (S (pred j)) with j by lia.
Qed.

Lemma stored_removeDomainRecord (domainId : string) (s : DomainsStore)
    (l : ref) (r : DomainRecord) :
  consistent s ->
  stored (snd (removeDomainRecord domainId s)) l r
  <-> stored s l r /\ id r <> domainId.
Proof.
  intros (Hwf & Hnd & Huniq).
  destruct (removeDomainRecord_cases domainId s)
    as [[Hnone ->]|(i & l0 & Hsome & Hi & _ & ->)]; simpl.
  - apply findDomainById_None in Hnone. split; [|tauto].
    intros Hst. split; [exact Hst|]. by apply (Hnone l r).
  - apply findDomainById_Some in Hsome as (r0 & Hst0 & Hid0).
    unfold stored. simpl. rewrite (elem_of_delete_NoDup _ _ l0 l Hnd Hi). split.
    + intros [[Hl Hne] Hr]. split; [by split|].
      intros Hid. apply Hne. apply (Huniq l l0 r r0); [by split|done|congruence].
    + intros [[Hl Hr] Hid]. split; [|exact Hr]. split; [exact Hl|].
      intros ->. destruct Hst0 as [_ Hr0]. congruence.
Qed.

(** X2.  [removeDomainRecord] returns [true] exactly when some stored record
    has the id.  When it returns [false] the store is unchanged; when it
    returns [true] the array is exactly one element shorter and no object is
    touched. *)
Theorem removeDomainRecord_result (domainId : string) (s : DomainsStore) :
  (fst (removeDomainRecord domainId s) = true
   <-> exists (l : ref) (r : DomainRecord), stored s l r /\ id r = domainId)
  /\ (fst (removeDomainRecord domainId s) = false ->
      snd (removeDomainRecord domainId s) = s)
  /\ (fst (removeDomainRecord domainId s) = true ->
      heap (snd (removeDomainRecord domainId s)) = heap s
      /\ S (length (records (snd (removeDomainRecord domainId s))))
         = length (records s)).
Proof.
  destruct (removeDomainRecord_cases domainId s)
    as [[Hnone ->]|(i & l & Hsome & Hi & _ & ->)]; simpl.
  - apply findDomainById_None in Hnone. split; [|split; [done|discriminate]].
    split; [discriminate|]. intros (l & r & Hst & Hid). by destruct (Hnone l r).
  - split; [|split; [discriminate|]].
    + split; [|reflexivity]. intros _.
      apply findDomainById_Some in Hsome as (r & Hst & Hid). eauto.
    + intros _. split; [reflexivity|].
      rewrite length_delete by eauto.
      apply lookup_lt_Some in Hi. lia.
Qed.

(** X3.  In a consistent store, after [removeDomainRecord(id)] the lookup
    [findDomainById(id)] finds nothing, and every record with another id is
    still stored. *)
Theorem removeDomainRecord_removes_the_record (domainId : string)
    (s : DomainsStore) :
  consistent s ->
  findDomainById domainId (snd (removeDomainRecord domainId s)) = None
  /\ forall (l : ref) (r : DomainRecord),
       stored s l r -> id r <> domainId ->
       stored (snd (removeDomainRecord domainId s)) l r.
Proof.
  intros Hcons. split.
  - apply findDomainById_None. intros l r Hst.
    by apply (stored_removeDomainRecord domainId s l r Hcons) in Hst as [_ Hid].
  - intros l r Hst Hid. by apply stored_removeDomainRecord.
Qed.

(** ** [updateDomainRecord] and [findDomainByName] *)

(** X4.  A call of [updateDomainRecord] that returns a record leaves [records]
    and every other object alone, changes nothing at all when [updates] has
    no [domain_name], and never changes the record's [id], [user_id],
    [verification_token], [created_at], [scanCount] or [lastScan]. *)
Theorem updateDomainRecord_frame (domainId : string) (updates : Updates)
    (s s' : DomainsStore) (l : ref) :
  updateDomainRecord domainId updates s = (Some l, s') ->
  records s' = records s
  /\ (forall l' : ref, l' <> l -> heap s' !! l' = heap s !! l')
  /\ (upd_domain_name updates = None -> s' = s)
  /\ exists r r' : DomainRecord,
       stored s l r /\ heap s' !! l = Some r'
       /\ id r = domainId
       /\ id r' = id r
       /\ user_id r' = user_id r
       /\ verification_token r' = verification_token r
       /\ created_at r' = created_at r
       /\ scanCount r' = scanCount r
       /\ lastScan r' = lastScan r.
Proof.
  unfold updateDomainRecord.
  destruct (findDomainById domainId s) as [l0|] eqn:Hfind; [|discriminate].
  apply findDomainById_Some in Hfind as (r & Hst & Hid).
  destruct (upd_domain_name updates) as [name|]; intros [= <- <-]; simpl.
  - split; [reflexivity|]. split; [intros l' Hl'; by rewrite lookup_alter_ne|].
    split; [discriminate|]. exists r, (rename name r).
    split; [exact Hst|]. rewrite lookup_alter_eq, (proj2 Hst). by repeat split.
  - split; [reflexivity|]. split; [reflexivity|]. split; [reflexivity|].
    exists r, r. split; [exact Hst|]. by repeat split; try apply Hst.
Qed.

(** X5.  [findDomainByName] depends on its query only up to case and
    surrounding white space: two queries with the same trimmed lower-case
    form find the same record. *)
Theorem findDomainByName_query_normalised (q q' : string) (s : DomainsStore) :
  toLowerCase (trim q) = toLowerCase (trim q') ->
  findDomainByName q s = findDomainByName q' s.
Proof.
  intros Heq. unfold findDomainByName.
  rewrite !trim_toLowerCase. by rewrite Heq.
Qed.

Lemma findDomainByName_trim (q : string) (s : DomainsStore) :
  findDomainByName (trim q) s = findDomainByName q s.
Proof.
  unfold findDomainByName. by rewrite !trim_toLowerCase, trim_idem.
Qed.

(** ** [verifyDomainRecord], called again *)

Lemma findDomainByName_after_verifyDomainRecord (domainName : string)
    (env : Env) (s : DomainsStore) :
  trim domainName = domainName ->
  findDomainByName domainName (snd (verifyDomainRecord domainName env s))
  = Some (fst (verifyDomainRecord domainName env s)).
Proof.
  intros Htrim.
  destruct (findDomainByName domainName s) as [l|] eqn:Hfind.
  - rewrite (verifyDomainRecord_found _ env _ _ Hfind). simpl.
    unfold findDomainByName in *. by rewrite find_alter.
  - rewrite (verifyDomainRecord_not_found _ env _ Hfind). simpl.
    unfold findDomainByName.
    rewrite find_cons_new by apply not_elem_of_dom, is_fresh.
    simpl. rewrite trim_toLowerCase, Htrim.
    by rewrite bool_decide_eq_true_2.
Qed.

Lemma verifyDomainRecord_verified (domainName : string) (env : Env)
    (s s1 : DomainsStore) (l : ref) :
  verifyDomainRecord domainName env s = (l, s1) ->
  exists r : DomainRecord,
    stored s1 l r /\ isVerified r = true /\ verified_at r = Some (nowIso env)
    /\ toLowerCase (trim (domain_name r)) = toLowerCase (trim domainName)
    /\ (length (records s1) = length (records s)
        \/ length (records s1) = S (length (records s))).
Proof.
  destruct (findDomainByName domainName s) as [l0|] eqn:Hfind.
  - rewrite (verifyDomainRecord_found _ env _ _ Hfind). intros [= <- <-].
    apply find_Some_stored in Hfind as (r & [Hin Hr] & Hp).
    apply bool_decide_eq_true in Hp.
    exists (markVerified (nowIso env) r). unfold stored. simpl.
    rewrite lookup_alter_eq, Hr. simpl. repeat split; auto.
    rewrite <- !trim_toLowerCase, Hp. apply trim_idem.
  - rewrite (verifyDomainRecord_not_found _ env _ Hfind). simpl.
    intros [= <- <-]. eexists. unfold stored. simpl.
    rewrite lookup_insert_eq. repeat split; auto. apply elem_of_cons; auto.
Qed.

(** X6.  For a name without surrounding white space, the record that
    [verifyDomainRecord] returns is the one [findDomainByName] finds
    afterwards, it is stored, verified and stamped, and a second call returns
    the same record and leaves [records] as it is. *)
Theorem verifyDomainRecord_idempotent (domainName : string) (env env' : Env)
    (s s1 : DomainsStore) (l : ref) :
  trim domainName = domainName ->
  verifyDomainRecord domainName env s = (l, s1) ->
  findDomainByName domainName s1 = Some l
  /\ (exists r : DomainRecord,
        stored s1 l r /\ isVerified r = true
        /\ verified_at r = Some (nowIso env))
  /\ fst (verifyDomainRecord domainName env' s1) = l
  /\ records (snd (verifyDomainRecord domainName env' s1)) = records s1.
Proof.
  intros Htrim Hrun.
  pose proof (findDomainByName_after_verifyDomainRecord domainName env s Htrim)
    as Hafter. rewrite Hrun in Hafter. simpl in Hafter.
  split; [exact Hafter|]. split.
  - pose proof Hafter as (r & Hst & _)%find_Some_stored.
    exists r. split; [exact Hst|]. destruct Hst as [_ Hr]. revert Hr Hrun.
    destruct (findDomainByName domainName s) as [l0|] eqn:Hfind.
    + rewrite (verifyDomainRecord_found _ env _ _ Hfind).
      intros Hr [= <- <-]. simpl in Hr. rewrite lookup_alter_eq in Hr.
      destruct (heap s !! l0); simpl in Hr; [|discriminate].
      by injection Hr as <-.
    + rewrite (verifyDomainRecord_not_found _ env _ Hfind). simpl.
      intros Hr [= <- <-]. simpl in Hr. rewrite lookup_insert_eq in Hr.
      by injection Hr as <-.
  - by rewrite (verifyDomainRecord_found _ env' _ _ Hafter).
Qed.

(** X7.  [verifyDomainRecord] stores the name as given but looks it up trimmed.
    For a name with surrounding white space that no record matches, the
    record just created is not found under that name, so a second call
    creates a second record. *)
Theorem verifyDomainRecord_untrimmed_name_repeats (domainName : string)
    (env env' : Env) (s : DomainsStore) :
  trim domainName <> domainName ->
  findDomainByName domainName s = None ->
  findDomainByName domainName (snd (verifyDomainRecord domainName env s)) = None
  /\ length (records (snd (verifyDomainRecord domainName env'
                             (snd (verifyDomainRecord domainName env s)))))
     = S (S (length (records s))).
Proof.
  intros Htrim Hfind.
  assert (forall e s0, findDomainByName domainName s0 = None ->
            findDomainByName domainName (snd (verifyDomainRecord domainName e s0))
            = None
            /\ length (records (snd (verifyDomainRecord domainName e s0)))
               = S (length (records s0))) as Hstep.
  { intros e s0 Hnone.
    rewrite (verifyDomainRecord_not_found _ e _ Hnone). simpl.
    split; [|reflexivity]. unfold findDomainByName in *.
    rewrite find_cons_new by apply not_elem_of_dom, is_fresh.
    simpl. rewrite bool_decide_eq_false_2; [exact Hnone|].
    rewrite trim_toLowerCase. by intros ?%toLowerCase_trim_fixed. }
  destruct (Hstep env s Hfind) as [Hnone1 Hlen1]. split; [exact Hnone1|].
  destruct (Hstep env' _ Hnone1) as [_ Hlen2]. by rewrite Hlen2, Hlen1.
Qed.

(** ** Ids stay unique *)

Lemma consistent_alter (f : DomainRecord -> DomainRecord) (l : ref)
    (s : DomainsStore) :
  (forall r, id (f r) = id r) ->
  consistent s ->
  consistent {| heap := alter f l (heap s); records := records s |}.
Proof.
  intros Hid (Hwf & Hnd & Huniq). split; [|split; [exact Hnd|]].
  - intros l' Hl'. simpl in *. rewrite lookup_alter_is_Some. by apply Hwf.
  - intros l1 l2 r1 r2 (r1' & H1 & ->)%stored_alter (r2' & H2 & ->)%stored_alter Heq.
    apply (Huniq l1 l2 r1' r2' H1 H2).
    repeat case_decide; rewrite ?Hid in Heq; exact Heq.
Qed.

Lemma stored_alloc (d : DomainRecord) (s : DomainsStore) (l : ref)
    (r : DomainRecord) :
  well_formed s ->
  stored (snd (alloc d s)) l r <-> stored s l r.
Proof.
  intros Hwf. unfold stored. simpl.
  split; intros [Hl Hr]; (split; [exact Hl|]).
  - rewrite lookup_insert_ne in Hr; [exact Hr|].
    intros <-. apply Hwf in Hl. apply elem_of_dom in Hl.
    by apply is_fresh in Hl.
  - rewrite lookup_insert_ne; [exact Hr|].
    intros <-. apply Hwf in Hl. apply elem_of_dom in Hl.
    by apply is_fresh in Hl.
Qed.

Lemma consistent_alloc (d : DomainRecord) (s : DomainsStore) :
  consistent s -> consistent (snd (alloc d s)).
Proof.
  intros (Hwf & Hnd & Huniq). split; [|split; [exact Hnd|]].
  - by apply (alloc_well_formed d s).
  - intros l1 l2 r1 r2 H1%stored_alloc H2%stored_alloc; [|done..].
    by apply Huniq.
Qed.

Lemma NoDup_insert_fresh (x : ref) (i : nat) (l : list ref) :
  NoDup l -> x ∉ l -> NoDup (<[i := x]> l).
Proof.
  intros Hnd Hx. apply NoDup_alt. intros j k y Hj Hk.
  apply list_lookup_insert_Some in Hj as [(-> & -> & _)|[Hij Hj]];
    apply list_lookup_insert_Some in Hk as [(Hik & Hxy & _)|[Hik Hk]].
  - done.
  - exfalso. apply Hx. apply list_elem_of_lookup. eauto.
  - subst. exfalso. apply Hx. apply list_elem_of_lookup. eauto.
  - by apply (NoDup_lookup l j k y).
Qed.

Lemma consistent_upsertDomain (domain : ref) (s : DomainsStore) :
  consistent s -> consistent (upsertDomain domain s).
Proof.
  intros Hcons. pose proof Hcons as (Hwf & Hnd & Huniq).
  destruct (heap s !! domain) as [d|] eqn:Hd;
    [|unfold upsertDomain; by rewrite Hd].
  destruct (upsertDomain_records domain d s Hd)
    as (Hheap & Hnew & Hrepl).
  destruct (findDomainById (id d) s) as [l|] eqn:Hfind.
  - destruct (Hrepl l eq_refl) as (i & Hi & Hrec & _).
    apply findDomainById_Some in Hfind as (r & Hst & Hidr).
    destruct (decide (domain ∈ records s)) as [Hin|Hnin].
    { (* the object is stored already: the assignment puts it where it is *)
      assert (domain = l) as <- by (apply (Huniq domain l d r); done).
      rewrite list_insert_id in Hrec by done.
      destruct (upsertDomain domain s) as [h' rs']. simpl in *. by subst. }
    assert (forall l' r',
              stored (upsertDomain domain s) l' r' ->
              (l' = domain /\ r' = d)
              \/ (stored s l' r' /\ l' <> l)) as Hstored.
    { intros l' r' [Hl' Hr']. rewrite Hheap in Hr'. rewrite Hrec in Hl'.
      apply list_elem_of_lookup in Hl' as [j Hj].
      apply list_lookup_insert_Some in Hj as [(-> & -> & _)|[Hij Hj]].
      - left. split; [reflexivity|congruence].
      - right. split; [split; [apply list_elem_of_lookup; eauto|done]|].
        intros ->. apply Hij. by apply (NoDup_lookup (records s) i j l). }
    split; [by apply upsertDomain_well_formed|]. split.
    + rewrite Hrec. by apply NoDup_insert_fresh.
    + intros l1 l2 r1 r2 [[-> ->]|[H1 Hne1]]%Hstored [[-> ->]|[H2 Hne2]]%Hstored Heq;
        [done| | |by apply (Huniq l1 l2 r1 r2)].
      * exfalso. apply Hne2. apply (Huniq l2 l r2 r); [done..|congruence].
      * exfalso. apply Hne1. apply (Huniq l1 l r1 r); [done..|congruence].
  - apply findDomainById_None in Hfind. specialize (Hnew Hfind).
    assert (forall l' r',
              stored (upsertDomain domain s) l' r' ->
              (l' = domain /\ r' = d) \/ stored s l' r') as Hstored.
    { intros l' r' [Hl' Hr']. rewrite Hheap in Hr'. rewrite Hnew in Hl'.
      apply elem_of_cons in Hl' as [->|Hl'].
      - left. split; [reflexivity|congruence].
      - right. by split. }
    split; [by apply upsertDomain_well_formed|]. split.
    + rewrite Hnew. apply NoDup_cons. split; [|exact Hnd].
      intros Hin. by apply (Hfind domain d).
    + intros l1 l2 r1 r2 [[-> ->]|H1]%Hstored [[-> ->]|H2]%Hstored Heq;
        [done| | |by apply (Huniq l1 l2 r1 r2)].
      * exfalso. by apply (Hfind l2 r2).
      * exfalso. by apply (Hfind l1 r1).
Qed.

Lemma consistent_verifyDomainRecord (domainName : string) (env : Env)
    (s : DomainsStore) :
  consistent s ->
  (findDomainByName domainName s = None -> id_unused (uid env) s) ->
  consistent (snd (verifyDomainRecord domainName env s)).
Proof.
  intros Hcons Hfresh.
  destruct (findDomainByName domainName s) as [l|] eqn:Hfind.
  - rewrite (verifyDomainRecord_found _ env _ _ Hfind). simpl.
    by apply consistent_alter.
  - rewrite (verifyDomainRecord_not_found _ env _ Hfind). simpl.
    specialize (Hfresh eq_refl). destruct Hcons as (Hwf & Hnd & Huniq).
    set (l := fresh (dom (heap s))).
    set (r := createDomainRecord domainName _ env).
    assert (l ∉ records s) as Hl.
    { intros Hin%Hwf%elem_of_dom. by apply is_fresh in Hin. }
    assert (forall l' r',
              stored {| heap := <[l := r]> (heap s); records := l :: records s |}
                l' r' ->
              (l' = l /\ r' = r) \/ stored s l' r') as Hstored.
    { intros l' r' [Hl' Hr']. simpl in *.
      apply elem_of_cons in Hl' as [->|Hl'].
      - left. rewrite lookup_insert_eq in Hr'. split; congruence.
      - right. split; [exact Hl'|].
        rewrite lookup_insert_ne in Hr'; [exact Hr'|]. by intros <-. }
    split; [|split].
    + intros l' Hl'. simpl in *. rewrite lookup_insert_is_Some.
      apply elem_of_cons in Hl' as [->|Hl']; [by left|].
      destruct (decide (l = l')); auto.
    + simpl. apply NoDup_cons. by split.
    + intros l1 l2 r1 r2 [[-> ->]|H1]%Hstored [[-> ->]|H2]%Hstored Heq;
        [done| | |by apply (Huniq l1 l2 r1 r2)].
      * exfalso. by apply (Hfresh l2 r2).
      * exfalso. by apply (Hfresh l1 r1).
Qed.

Lemma consistent_updateDomainRecord (domainId : string) (updates : Updates)
    (s : DomainsStore) :
  consistent s -> consistent (snd (updateDomainRecord domainId updates s)).
Proof.
  intros Hcons. unfold updateDomainRecord.
  destruct (findDomainById domainId s); [|exact Hcons].
  destruct (upd_domain_name updates); [|exact Hcons].
  simpl. by apply consistent_alter.
Qed.

Lemma consistent_removeDomainRecord (domainId : string) (s : DomainsStore) :
  consistent s -> consistent (snd (removeDomainRecord domainId s)).
Proof.
  intros Hcons. pose proof Hcons as (Hwf & Hnd & Huniq). split; [|split].
  - by apply removeDomainRecord_well_formed.
  - destruct (removeDomainRecord_cases domainId s)
      as [[_ ->]|(i & l0 & _ & _ & _ & ->)]; simpl; [exact Hnd|].
    eapply sublist_NoDup; [exact Hnd|apply sublist_delete].
  - intros l1 l2 r1 r2 [H1 _]%stored_removeDomainRecord
      [H2 _]%stored_removeDomainRecord; [|done..].
    by apply Huniq.
Qed.

Lemma consistent_apply_op (op : StoreOp) (s : DomainsStore) :
  consistent s -> uid_fresh op s -> consistent (apply_op op s).
Proof.
  intros Hcons Hfresh.
  destruct op as [d|domainName env|domainId updates|domainId]; simpl.
  - apply consistent_upsertDomain. by apply consistent_alloc.
  - by apply consistent_verifyDomainRecord.
  - by apply consistent_updateDomainRecord.
  - by apply consistent_removeDomainRecord.
Qed.

Lemma initialStore_consistent (e1 e2 e3 : Env) (ls1 ls2 : string) :
  uid e1 <> uid e2 -> uid e1 <> uid e3 -> uid e2 <> uid e3 ->
  consistent (initialStore e1 e2 e3 ls1 ls2).
Proof.
  intros H12 H13 H23. split; [apply initialStore_well_formed|]. split.
  - exact (NoDup_seq 0 3).
  - assert (forall l r, stored (initialStore e1 e2 e3 ls1 ls2) l r ->
              (l = 0 /\ id r = uid e1) \/ (l = 1 /\ id r = uid e2)
              \/ (l = 2 /\ id r = uid e3))%nat as Hcases.
    { intros l r [Hl Hr]. apply list_elem_of_In in Hl. simpl in Hl.
      destruct Hl as [<-|[<-|[<-|[]]]]; vm_compute in Hr;
        injection Hr as <-; auto. }
    intros l1 l2 r1 r2 H1%Hcases H2%Hcases Heq.
    destruct H1 as [[-> E1]|[[-> E1]|[-> E1]]],
             H2 as [[-> E2]|[[-> E2]|[-> E2]]];
      try reflexivity; exfalso; congruence.
Qed.

(** X8.  Every sequence of store operations keeps the store consistent
    (references valid, none listed twice, ids unique), provided that each id
    [uid()] gives to a newly created record is not in use. *)
Theorem consistent_apply_ops (ops : list StoreOp) (s : DomainsStore) :
  consistent s -> uids_fresh ops s -> consistent (apply_ops ops s).
Proof.
  unfold apply_ops. revert s.
  induction ops as [|op ops IH]; intros s Hcons Hfresh; simpl; [exact Hcons|].
  destruct Hfresh as [Hop Hrest].
  apply IH; [by apply consistent_apply_op | exact Hrest].
Qed.

(** ** Flag and timestamp stay in step *)

Lemma timestamp_agrees_markVerified (ts : string) (r : DomainRecord) :
  timestamp_agrees (markVerified ts r).
Proof. unfold timestamp_agrees. simpl. split; eauto. Qed.

Lemma timestamp_agrees_rename (name : string) (r : DomainRecord) :
  timestamp_agrees (rename name r).
Proof.
  unfold timestamp_agrees. simpl. split; [discriminate|]. by intros [? [=]].
Qed.

Lemma timestamp_agrees_createDomainRecord (domainName : string)
    (options : CreateOptions) (env : Env) :
  timestamp_agrees (createDomainRecord domainName options env).
Proof.
  unfold timestamp_agrees, createDomainRecord. simpl.
  destruct (default false (opt_verified options)); split;
    eauto; try discriminate. by intros [? [=]].
Qed.

Lemma verified_consistent_alter (f : DomainRecord -> DomainRecord) (l : ref)
    (s : DomainsStore) :
  (forall r, timestamp_agrees (f r)) ->
  verified_consistent s ->
  verified_consistent {| heap := alter f l (heap s); records := records s |}.
Proof.
  intros Hf Hs l' r' (r & Hst & ->)%stored_alter.
  case_decide; [apply Hf | by apply (Hs l' r)].
Qed.

Lemma verified_consistent_apply_op (op : StoreOp) (s : DomainsStore) :
  verified_consistent s -> keeps_timestamp op ->
  verified_consistent (apply_op op s).
Proof.
  intros Hs Hop.
  destruct op as [d|domainName env|domainId updates|domainId]; simpl in *.
  - set (l := fresh (dom (heap s))).
    assert (heap s !! l = None) as Hl by apply not_elem_of_dom, is_fresh.
    assert (forall l' r',
              heap (upsertDomain l
                      {| heap := <[l := d]> (heap s); records := records s |})
                !! l' = Some r' ->
              l' ∈ records (upsertDomain l
                      {| heap := <[l := d]> (heap s); records := records s |}) ->
              r' = d \/ stored s l' r') as Hstored.
    { intros l' r'. unfold upsertDomain. simpl. rewrite lookup_insert_eq.
      destruct (0 <=? _); simpl; intros Hr' Hl';
        (destruct (decide (l = l')) as [<-|Hne];
         [rewrite lookup_insert_eq in Hr'; left; congruence|]);
        rewrite lookup_insert_ne in Hr' by done; right; (split; [|done]).
      - apply list_elem_of_lookup in Hl' as [j Hj].
        apply list_lookup_insert_Some in Hj as [(_ & ? & _)|[_ Hj]]; [done|].
        apply list_elem_of_lookup. eauto.
      - by apply elem_of_cons in Hl' as [->|Hl']. }
    intros l' r' [Hin Hr']. destruct (Hstored l' r' Hr' Hin) as [->|Hst];
      [exact Hop | by apply (Hs l' r')].
  - destruct (findDomainByName domainName s) as [l|] eqn:Hfind.
    + rewrite (verifyDomainRecord_found _ env _ _ Hfind). simpl.
      apply verified_consistent_alter; [|exact Hs].
      apply timestamp_agrees_markVerified.
    + rewrite (verifyDomainRecord_not_found _ env _ Hfind). simpl.
      intros l' r' [Hin Hr']. simpl in *.
      destruct (decide (fresh (dom (heap s)) = l')) as [<-|Hne].
      * rewrite lookup_insert_eq in Hr'. injection Hr' as <-.
        apply timestamp_agrees_createDomainRecord.
      * rewrite lookup_insert_ne in Hr' by done.
        apply elem_of_cons in Hin as [->|Hin]; [done|].
        by apply (Hs l' r').
  - unfold updateDomainRecord.
    destruct (findDomainById domainId s); [|exact Hs].
    destruct (upd_domain_name updates); [|exact Hs]. simpl.
    apply verified_consistent_alter; [|exact Hs].
    apply timestamp_agrees_rename.
  - intros l' r' [Hin Hr'].
    destruct (removeDomainRecord_cases domainId s)
      as [[_ Heq]|(i & l0 & _ & _ & _ & Heq)]; rewrite Heq in Hin, Hr';
      simpl in *; [by apply (Hs l' r')|].
    apply (Hs l' r'). split; [by eapply list_elem_of_delete_inv|done].
Qed.

Lemma initialStore_verified_consistent (e1 e2 e3 : Env) (ls1 ls2 : string) :
  verified_consistent (initialStore e1 e2 e3 ls1 ls2).
Proof.
  intros l r [Hl Hr]. apply list_elem_of_In in Hl. simpl in Hl.
  destruct Hl as [<-|[<-|[<-|[]]]]; vm_compute in Hr; injection Hr as <-;
    unfold timestamp_agrees; simpl; split; eauto; try discriminate;
    by intros [? [=]].
Qed.

(** X9.  From the initial store on, every stored record is verified exactly
    when it has a verification timestamp, whatever operations run, as long
    as the objects handed to [upsertDomain] are so. *)
Theorem verified_consistent_apply_ops (ops : list StoreOp)
    (e1 e2 e3 : Env) (ls1 ls2 : string) :
  Forall keeps_timestamp ops ->
  verified_consistent (apply_ops ops (initialStore e1 e2 e3 ls1 ls2)).
Proof.
  intros Hops. unfold apply_ops.
  generalize (initialStore_verified_consistent e1 e2 e3 ls1 ls2).
  generalize (initialStore e1 e2 e3 ls1 ls2).
  induction Hops as [|op ops Hop _ IH]; intros s Hs; simpl; [exact Hs|].
  apply IH. by apply verified_consistent_apply_op.
Qed.

(** ** The mock API, its handlers and its callers *)

Lemma serialize_find (p : DomainRecord -> bool) (s : DomainsStore) :
  List.find p (serialize (records s) s)
  = find p s ≫= fun l => heap s !! l.
Proof.
  unfold serialize, find. induction (records s) as [|l rs IH]; [reflexivity|].
  simpl. destruct (decide (Is_true (test_at (heap s) p l))) as [Ht|Ht];
    unfold test_at in Ht; destruct (heap s !! l) as [d|] eqn:Hd; simpl.
  - apply Is_true_true in Ht. by rewrite Ht, Hd.
  - destruct Ht.
  - apply Is_true_false in Ht. rewrite Ht.
    change (list_omap ref DomainRecord ?f rs) with (omap f rs). rewrite IH.
    by destruct (list_find _ rs) as [[??]|].
  - change (list_omap ref DomainRecord ?f rs) with (omap f rs). rewrite IH.
    by destruct (list_find _ rs) as [[??]|].
Qed.

Lemma isVerified_opt_find (p : DomainRecord -> bool) (s : DomainsStore) :
  isVerified_opt (find p s) s
  = match List.find p (serialize (records s) s) with
    | Some d => isVerified d
    | None => false
    end.
Proof.
  rewrite serialize_find. unfold isVerified_opt.
  destruct (find p s) as [l|]; simpl; [|reflexivity].
  by destruct (heap s !! l).
Qed.

Lemma serialize_lookup (h : gmap ref DomainRecord) (rs : list ref) :
  (forall l, l ∈ rs -> is_Some (h !! l)) ->
  forall j : nat, omap (fun l => h !! l) rs !! j = rs !! j ≫= fun l => h !! l.
Proof.
  induction rs as [|l rs IH]; intros Hwf j; [reflexivity|].
  destruct (Hwf l) as [d Hd]; [apply elem_of_cons; auto|].
  simpl. rewrite Hd. destruct j as [|j]; simpl; [by rewrite Hd|].
  apply IH. intros l' Hl'. apply Hwf. apply elem_of_cons; auto.
Qed.

Section MockAndCallers.

Variable DOMAIN_VERIFY_TOKEN : string.

Lemma verifyDomainMock_success_inv (domain token : string) (env : Env)
    (s s1 : DomainsStore) (l : ref) :
  verifyDomainMock DOMAIN_VERIFY_TOKEN domain token env s = (inr l, s1) ->
  trim domain <> ""
  /\ token = DOMAIN_VERIFY_TOKEN
  /\ endsWith (trim domain) ".invalid" = false
  /\ isVerified_opt (findDomainByName (trim domain) s) s = false
  /\ verifyDomainRecord (trim domain) env s = (l, s1).
Proof.
  unfold verifyDomainMock.
  destruct (isEmpty (trim domain)) eqn:Hempty; [discriminate|].
  destruct (bool_decide (token = DOMAIN_VERIFY_TOKEN)) eqn:Htok;
    simpl; [|discriminate].
  destruct (endsWith (trim domain) ".invalid") eqn:Hsuf; [discriminate|].
  unfold bind, read. simpl.
  destruct (isVerified_opt _ _) eqn:Hver; [discriminate|].
  unfold run. destruct (verifyDomainRecord _ _ _) as [l' s'] eqn:Hrun.
  intros [= <- <-]. apply isEmpty_false in Hempty.
  apply bool_decide_eq_true in Htok. done.
Qed.

(** What a throwing call has found, guard by guard. *)
Lemma verifyDomainMock_error_inv (domain token : string) (env : Env)
    (s s1 : DomainsStore) (e : ApiError) :
  verifyDomainMock DOMAIN_VERIFY_TOKEN domain token env s = (inl e, s1) ->
  s1 = s
  /\ ((e = MissingDomain /\ trim domain = "")
      \/ (e = InvalidToken /\ trim domain <> ""
          /\ token <> DOMAIN_VERIFY_TOKEN)
      \/ (e = DnsVerificationFailed /\ token = DOMAIN_VERIFY_TOKEN
          /\ endsWith (trim domain) ".invalid" = true)
      \/ (e = AlreadyVerified /\ token = DOMAIN_VERIFY_TOKEN
          /\ isVerified_opt (findDomainByName (trim domain) s) s = true)).
Proof.
  unfold verifyDomainMock.
  destruct (isEmpty (trim domain)) eqn:Hempty.
  { intros [= <- <-]. apply isEmpty_true in Hempty. auto. }
  apply isEmpty_false in Hempty.
  destruct (bool_decide (token = DOMAIN_VERIFY_TOKEN)) eqn:Htok; simpl.
  2: { intros [= <- <-]. apply bool_decide_eq_false in Htok. auto 6. }
  apply bool_decide_eq_true in Htok.
  destruct (endsWith (trim domain) ".invalid") eqn:Hsuf.
  { intros [= <- <-]. auto 8. }
  unfold bind, read. simpl.
  destruct (isVerified_opt _ _) eqn:Hver.
  { intros [= <- <-]. auto 10. }
  unfold run. destruct (verifyDomainRecord _ _ _). discriminate.
Qed.

(** X10.  A call of [verifyDomainMock] that returns, returns a stored record
    that is verified and stamped with the time of the call, whose name is the
    requested one up to case and surrounding white space, and that
    [findDomainByName] finds for the domain as submitted; the array has grown
    by at most one. *)
Theorem verifyDomainMock_success (domain token : string) (env : Env)
    (s s1 : DomainsStore) (l : ref) :
  verifyDomainMock DOMAIN_VERIFY_TOKEN domain token env s = (inr l, s1) ->
  findDomainByName domain s1 = Some l
  /\ exists r : DomainRecord,
       stored s1 l r
       /\ isVerified r = true
       /\ verified_at r = Some (nowIso env)
       /\ toLowerCase (trim (domain_name r)) = toLowerCase (trim domain)
       /\ (length (records s1) = length (records s)
           \/ length (records s1) = S (length (records s))).
Proof.
  intros (_ & _ & _ & _ & Hrun)%verifyDomainMock_success_inv. split.
  - rewrite <- findDomainByName_trim.
    pose proof (findDomainByName_after_verifyDomainRecord (trim domain) env s
                  (trim_idem domain)) as Hafter.
    by rewrite Hrun in Hafter.
  - apply verifyDomainRecord_verified in Hrun as (r & Hst & Hv & Hat & Hn & Hlen).
    rewrite trim_idem in Hn. by exists r.
Qed.

(** X11.  After a call of [verifyDomainMock] that returned, the same call
    again fails with [AlreadyVerified] and changes nothing. *)
Theorem verifyDomainMock_twice (domain token : string) (env env' : Env)
    (s s1 : DomainsStore) (l : ref) :
  verifyDomainMock DOMAIN_VERIFY_TOKEN domain token env s = (inr l, s1) ->
  verifyDomainMock DOMAIN_VERIFY_TOKEN domain token env' s1
  = (inl AlreadyVerified, s1).
Proof.
  intros (Hne & Htok & Hsuf & _ & Hrun)%verifyDomainMock_success_inv.
  rewrite verifyDomainMock_after_guards by assumption.
  pose proof (findDomainByName_after_verifyDomainRecord (trim domain) env s
                (trim_idem domain)) as Hafter.
  rewrite Hrun in Hafter. simpl in Hafter. rewrite Hafter.
  apply verifyDomainRecord_verified in Hrun as (r & [_ Hr] & Hv & _).
  simpl. by rewrite Hr, Hv.
Qed.

(** X12.  [POST /domains/verify] with a body that is [null], has no [domain]
    or has a blank one answers 400 with the message [Domain is required.],
    whatever the token, and leaves the store alone. *)
Theorem postVerifyHandler_missing_domain (body : option VerifyRequestBody)
    (env : Env) (s : DomainsStore) :
  trim (default "" (body ≫= body_domain)) = "" ->
  postVerifyHandler DOMAIN_VERIFY_TOKEN body env s
  = ({| resp_status := 400; resp_json := JsonMessage "Domain is required." |}, s).
Proof.
  intros Hempty. unfold postVerifyHandler, verifyDomainMock.
  by rewrite Hempty.
Qed.

(** X13.  [POST /domains/verify] either answers 200 with a stored record that is
    verified and stamped, or answers 400, 409 or 422 with a message and
    leaves the store as it was; for a body of the declared type it never
    answers 500. *)
Theorem postVerifyHandler_response (body : option VerifyRequestBody)
    (env : Env) (s s' : DomainsStore) (resp : HttpResponse) :
  postVerifyHandler DOMAIN_VERIFY_TOKEN body env s = (resp, s') ->
  (resp_status resp = 200
   /\ exists (l : ref) (d : DomainRecord),
        resp_json resp = JsonDomain d /\ stored s' l d
        /\ isVerified d = true /\ verified_at d = Some (nowIso env))
  \/ ((resp_status resp = 400 \/ resp_status resp = 409
       \/ resp_status resp = 422)
      /\ (exists message : string, resp_json resp = JsonMessage message)
      /\ s' = s).
Proof.
  unfold postVerifyHandler.
  destruct (verifyDomainMock _ _ _ env s) as [[e|l] s1] eqn:Hrun.
  - intros [= <- <-]. right.
    apply verifyDomainMock_error_inv in Hrun as [-> He].
    split; [|split; [by eexists|reflexivity]].
    destruct He as [[-> _]|[[-> _]|[[-> _]|[-> _]]]]; simpl; auto.
  - apply verifyDomainMock_success_inv in Hrun as (_ & _ & _ & _ & Hrun).
    apply verifyDomainRecord_verified in Hrun as (r & Hst & Hv & Hat & _).
    rewrite (proj2 Hst). intros [= <- <-]. left. split; [reflexivity|].
    by exists l, r.
Qed.

(** X14.  The record that [POST /domains/verify] answers with status 200 is
    verified, and it is in the list that [GET /domains] answers next. *)
Theorem postVerifyHandler_then_getDomainsHandler 
    (body : option VerifyRequestBody) (env : Env) (s s' : DomainsStore)
    (resp : HttpResponse) :
  postVerifyHandler DOMAIN_VERIFY_TOKEN body env s = (resp, s') ->
  resp_status resp = 200 ->
  exists (d : DomainRecord) (domains : list DomainRecord),
    resp_json resp = JsonDomain d
    /\ isVerified d = true
    /\ getDomainsHandler s'
       = (inr {| resp_status := 200; resp_json := JsonDomains domains |}, s')
    /\ d ∈ domains.
Proof.
  unfold postVerifyHandler.
  destruct (verifyDomainMock _ _ _ env s) as [[e|l] s1] eqn:Hrun.
  - intros [= <- <-]. simpl.
    apply verifyDomainMock_error_inv in Hrun as [_ He].
    destruct He as [[-> _]|[[-> _]|[[-> _]|[-> _]]]]; discriminate.
  - apply verifyDomainMock_success_inv in Hrun as (_ & _ & _ & _ & Hrun).
    apply verifyDomainRecord_verified in Hrun as (r & [Hin Hr] & Hv & _).
    rewrite Hr. intros [= <- <-] _.
    exists r, (serialize (records s1) s1).
    split; [reflexivity|]. split; [exact Hv|]. split; [reflexivity|].
    unfold serialize. apply list_elem_of_omap. by exists l.
Qed.

(** X15.  When [verifyDomain] returns the mock's record, mocks are enabled, the
    token was the expected one, and the record is stored, verified and found
    by [findDomainByName] for the submitted domain. *)
Theorem verifyDomain_from_mock (cenv : ClientEnv)
    (apiRequest : DomainsStore -> (Thrown + DomainRecord) * DomainsStore)
    (domain token : string) (env : Env) (s s' : DomainsStore) (l : ref) :
  verifyDomain DOMAIN_VERIFY_TOKEN cenv apiRequest domain token env s
  = (inr (FromMock l), s') ->
  useMocks cenv = true
  /\ token = DOMAIN_VERIFY_TOKEN
  /\ findDomainByName domain s' = Some l
  /\ exists r : DomainRecord,
       stored s' l r /\ isVerified r = true
       /\ verified_at r = Some (nowIso env).
Proof.
  assert (forall s0,
            viaMock FromMock
              (verifyDomainMock DOMAIN_VERIFY_TOKEN domain token env) s0
            = (inr (FromMock l), s') ->
            token = DOMAIN_VERIFY_TOKEN
            /\ findDomainByName domain s' = Some l
            /\ exists r : DomainRecord,
                 stored s' l r /\ isVerified r = true
                 /\ verified_at r = Some (nowIso env)) as Hmock.
  { intros s0. unfold viaMock.
    destruct (verifyDomainMock _ _ _ _ s0) as [[e|l0] s1] eqn:Hrun;
      [discriminate|]. intros [= -> ->].
    pose proof Hrun as (_ & Htok & _ & _ & Hrec)%verifyDomainMock_success_inv.
    split; [exact Htok|]. split.
    - rewrite <- findDomainByName_trim.
      pose proof (findDomainByName_after_verifyDomainRecord (trim domain) env s0
                    (trim_idem domain)) as Hafter.
      by rewrite Hrec in Hafter.
    - apply verifyDomainRecord_verified in Hrec as (r & Hst & Hv & Hat & _).
      by exists r. }
  unfold verifyDomain.
  destruct (useMocks cenv) eqn:Hmocks; simpl.
  - destruct (negb (hasWindow cenv)); [intros H%Hmock; tauto|].
    destruct (apiRequest s) as [[error|d] s1]; [|discriminate].
    destruct (shouldUseMockFallback cenv error); [|discriminate].
    intros H%Hmock. tauto.
  - destruct (apiRequest s) as [[error|d] s1]; [|discriminate].
    unfold shouldUseMockFallback. rewrite Hmocks. discriminate.
Qed.

(** X16.  When the request is made and the server answers with an [ApiError]
    whose status is not 404, [verifyDomain] rethrows that error and does not
    consult the mock, with mocks enabled or not. *)
Theorem verifyDomain_rethrows_api_error (cenv : ClientEnv)
    (apiRequest : DomainsStore -> (Thrown + DomainRecord) * DomainsStore)
    (domain token : string) (env : Env) (s s1 : DomainsStore)
    (e : ApiError) :
  useMocks cenv = false \/ hasWindow cenv = true ->
  apiRequest s = (inl (ThrownApiError e), s1) ->
  status e <> 404 ->
  verifyDomain DOMAIN_VERIFY_TOKEN cenv apiRequest domain token env s
  = (inl (ThrownApiError e), s1).
Proof.
  intros Hreq Hrun Hstatus. unfold verifyDomain, shouldUseMockFallback.
  destruct (useMocks cenv) eqn:Hmocks; simpl.
  - destruct Hreq as [|Hwin]; [discriminate|]. rewrite Hwin. simpl.
    rewrite Hrun. by rewrite (proj2 (Z.eqb_neq _ _) Hstatus).
  - by rewrite Hrun.
Qed.

(** X17.  When the Continue step of the add-domain dialog accepts the input
    against the list that the mock store serialises to, the dialog is on its
    DNS step, the Verify step submits the trimmed input with the expected
    token, and the mock either verifies it or fails with
    [DnsVerificationFailed]: none of the other three errors can occur. *)
Theorem handleDomainContinue_agrees_with_mock (st st' : ModalState)
    (s : DomainsStore) (env : Env) :
  handleDomainContinue (serialize (records s) s) st = st' ->
  errorMessage st' = None ->
  modalStep st' = StepDns
  /\ handleVerifyDomain DOMAIN_VERIFY_TOKEN st'
     = (st', Some (trim (domainInput st), DOMAIN_VERIFY_TOKEN))
  /\ (verifyDomainMock DOMAIN_VERIFY_TOKEN (trim (domainInput st))
        DOMAIN_VERIFY_TOKEN env s
      = (inl DnsVerificationFailed, s)
      \/ exists (l : ref) (s1 : DomainsStore),
           verifyDomainMock DOMAIN_VERIFY_TOKEN (trim (domainInput st))
             DOMAIN_VERIFY_TOKEN env s
           = (inr l, s1)).
Proof.
  unfold handleDomainContinue.
  destruct (isEmpty (trim (domainInput st))) eqn:Hempty.
  { intros <-. discriminate. }
  destruct (match List.find _ _ with Some d => isVerified d | None => false end)
    eqn:Hexisting.
  { intros <-. discriminate. }
  intros <- _. simpl. split; [reflexivity|]. split.
  { unfold handleVerifyDomain. simpl. by rewrite Hempty. }
  apply isEmpty_false in Hempty.
  assert (trim (trim (domainInput st)) <> "") as Hne by (by rewrite trim_idem).
  destruct (endsWith (trim (trim (domainInput st))) ".invalid") eqn:Hsuf.
  - left. unfold verifyDomainMock.
    apply isEmpty_false in Hne. rewrite Hne, Hsuf.
    by rewrite bool_decide_eq_true_2.
  - right. rewrite verifyDomainMock_after_guards by done.
    unfold findDomainByName. rewrite isVerified_opt_find.
    rewrite trim_toLowerCase, !trim_idem, Hexisting.
    unfold run. destruct (verifyDomainRecord _ _ _) as [l s1]. eauto.
Qed.

End MockAndCallers.

(** ** The cached list of the domains pages *)

(** X18.  The cache update after a verification puts the verified domain
    first, keeps in order exactly the cached entries that differ from it in
    both id and name, and keeps ids unique if they were. *)
Theorem domainsAfterVerify_spec (domain : DomainRecord)
    (current : option (list DomainRecord)) :
  exists rest : list DomainRecord,
    domainsAfterVerify domain current = domain :: rest
    /\ rest `sublist_of` default [] current
    /\ (forall e : DomainRecord,
          e ∈ rest
          <-> e ∈ default [] current
              /\ id e <> id domain /\ domain_name e <> domain_name domain)
    /\ (NoDup (id <$> default [] current) ->
        NoDup (id <$> domainsAfterVerify domain current)).
Proof.
  unfold domainsAfterVerify. eexists. split; [reflexivity|].
  split; [apply sublist_filter|]. split.
  - intros e. rewrite list_elem_of_filter. tauto.
  - intros Hnd. csimpl. apply NoDup_cons. split.
    + intros (e & Heq & [[Hid _] _]%list_elem_of_filter)%list_elem_of_fmap.
      by apply Hid.
    + eapply sublist_NoDup; [exact Hnd|].
      apply fmap_sublist, sublist_filter.
Qed.

Lemma findIndexOf_cases {A} (P : A -> Prop) `{!forall x, Decision (P x)}
    (l : list A) :
  (findIndexOf P l = -1 /\ Forall (fun x => ~ P x) l)
  \/ exists (i : nat) (x : A),
       findIndexOf P l = Z.of_nat i /\ l !! i = Some x /\ P x
       /\ forall (j : nat) (y : A), l !! j = Some y -> (j < i)%nat -> ~ P y.
Proof.
  unfold findIndexOf. destruct (list_find P l) as [[i x]|] eqn:Hfind.
  - right. exists i, x. apply list_find_Some in Hfind. tauto.
  - left. apply list_find_None in Hfind. tauto.
Qed.

(** X19.  The cache update after a rename contains the updated domain, keeps
    every entry with another id, keeps the length when the id was cached and
    adds one otherwise, and keeps ids unique if they were. *)
Theorem domainsAfterUpdate_spec (updatedDomain : DomainRecord)
    (current : option (list DomainRecord)) :
  updatedDomain ∈ domainsAfterUpdate updatedDomain current
  /\ (forall e : DomainRecord,
        e ∈ default [] current -> id e <> id updatedDomain ->
        e ∈ domainsAfterUpdate updatedDomain current)
  /\ length (domainsAfterUpdate updatedDomain current)
     = (if bool_decide (id updatedDomain ∈ id <$> default [] current)
        then length (default [] current)
        else S (length (default [] current)))
  /\ (NoDup (id <$> default [] current) ->
      NoDup (id <$> domainsAfterUpdate updatedDomain current)).
Proof.
  unfold domainsAfterUpdate. set (cur := default [] current).
  destruct (findIndexOf_cases (fun item => id item = id updatedDomain) cur)
    as [[-> Hnone]|(i & x & -> & Hi & Hx & Hlt)].
  - simpl. rewrite Forall_forall in Hnone.
    assert (id updatedDomain ∉ id <$> cur) as Hnotin.
    { intros (e & Heq & He)%list_elem_of_fmap. by apply (Hnone e). }
    split; [apply elem_of_cons; auto|].
    split; [intros e He _; apply elem_of_cons; auto|].
    split; [by rewrite bool_decide_eq_false_2|].
    intros Hnd. csimpl. by apply NoDup_cons.
  - replace (0 <=? Z.of_nat i) with true by (symmetry; apply Z.leb_le; lia).
    rewrite Nat2Z.id. pose proof (lookup_lt_Some _ _ _ Hi) as Hlen.
    split; [by apply list_elem_of_insert|]. split; [|split].
    + intros e [j Hj]%list_elem_of_lookup Hid. apply list_elem_of_lookup.
      exists j. rewrite list_lookup_insert_ne; [exact Hj|].
      intros <-. congruence.
    + rewrite length_insert. rewrite bool_decide_eq_true_2; [reflexivity|].
      apply list_elem_of_fmap. exists x. split; [done|].
      apply list_elem_of_lookup. eauto.
    + intros Hnd. rewrite list_fmap_insert.
      rewrite list_insert_id; [exact Hnd|].
      rewrite list_lookup_fmap, Hi. simpl. by rewrite Hx.
Qed.

(** X22.  [pendingCount] is the number of unverified domains; it is never
    negative, and with [verifiedCount] it adds up to [totalDomains]. *)
Theorem pendingCount_counts_unverified (domains : list DomainRecord) :
  pendingCount domains
  = Z.of_nat (length (filter (fun domain => isVerified domain = false) domains))
  /\ 0 <= pendingCount domains <= totalDomains domains
  /\ verifiedCount domains + pendingCount domains = totalDomains domains.
Proof.
  unfold pendingCount, verifiedCount, totalDomains.
  assert (length (filter (fun domain => isVerified domain = true) domains)
          + length (filter (fun domain => isVerified domain = false) domains)
          = length domains)%nat as Hsplit.
  { induction domains as [|d ds IH]; [reflexivity|].
    rewrite !filter_cons. destruct (isVerified d) eqn:Hd.
    - rewrite decide_True, decide_False by done. simpl. lia.
    - rewrite decide_False, decide_True by done. simpl. lia. }
  lia.
Qed.

Lemma filter_omap_all (P : DomainRecord -> Prop) `{!forall x, Decision (P x)}
    (h : gmap ref DomainRecord) (rs : list ref) :
  (forall l r, l ∈ rs -> h !! l = Some r -> P r) ->
  filter P (omap (fun l => h !! l) rs) = omap (fun l => h !! l) rs.
Proof.
  induction rs as [|l rs IH]; intros HP; [reflexivity|]. csimpl.
  assert (filter P (omap (fun l => h !! l) rs) = omap (fun l => h !! l) rs)
    as IH' by (apply IH; intros l' r' Hl'; apply HP, elem_of_cons; auto).
  destruct (h !! l) as [d|] eqn:Hd; [|exact IH'].
  rewrite filter_cons_True by (apply (HP l d); [apply elem_of_cons; auto|done]).
  by rewrite IH'.
Qed.

Lemma serialize_delete (domainId : string) (h : gmap ref DomainRecord)
    (rs : list ref) (i : nat) (l0 : ref) (r0 : DomainRecord) :
  (forall l, l ∈ rs -> is_Some (h !! l)) ->
  NoDup rs ->
  (forall l r, l ∈ rs -> h !! l = Some r -> id r = domainId -> l = l0) ->
  rs !! i = Some l0 -> h !! l0 = Some r0 -> id r0 = domainId ->
  omap (fun l => h !! l) (delete i rs)
  = filter (fun domain => id domain <> domainId) (omap (fun l => h !! l) rs).
Proof.
  revert i. induction rs as [|l rs IH]; intros i Hwf Hnd Huniq Hi Hr0 Hid;
    [discriminate|].
  apply NoDup_cons in Hnd as [Hl Hnd].
  destruct i as [|i]; simpl in Hi.
  - injection Hi as ->. csimpl. rewrite Hr0.
    rewrite filter_cons_False by (intros Hne; by apply Hne).
    symmetry. apply filter_omap_all. intros l r Hin Hr Heq.
    apply Hl. rewrite <- (Huniq l r); [done|apply elem_of_cons; auto|done..].
  - destruct (Hwf l) as [d Hd]; [apply elem_of_cons; auto|].
    assert (id d <> domainId) as Hd'.
    { intros Heq. apply Hl.
      rewrite (Huniq l d); [|apply elem_of_cons; auto|done..].
      apply list_elem_of_lookup. eauto. }
    csimpl. rewrite Hd. rewrite filter_cons_True by done. f_equal.
    apply IH; try done.
    + intros l' Hl'. apply Hwf, elem_of_cons. auto.
    + intros l' r' Hl'. apply Huniq, elem_of_cons. auto.
Qed.

(** X20.  For a consistent store, the cache update after a removal, applied to
    the list the store serialises to, gives the list that the store
    serialises to after [removeDomainRecord]. *)
Theorem domainsAfterRemove_mirrors_store (domainId : string)
    (s : DomainsStore) :
  consistent s ->
  serialize (records (snd (removeDomainRecord domainId s)))
    (snd (removeDomainRecord domainId s))
  = domainsAfterRemove domainId (Some (serialize (records s) s)).
Proof.
  intros (Hwf & Hnd & Huniq). unfold domainsAfterRemove, serialize. simpl.
  destruct (removeDomainRecord_cases domainId s)
    as [[Hnone ->]|(i & l0 & Hsome & Hi & _ & ->)]; simpl.
  - apply findDomainById_None in Hnone. symmetry. apply filter_omap_all.
    intros l r Hl Hr. by apply (Hnone l r).
  - apply findDomainById_Some in Hsome as (r0 & Hst0 & Hid0).
    apply (serialize_delete domainId _ _ i l0 r0); try done; [|apply Hst0].
    intros l r Hl Hr Hid. apply (Huniq l l0 r r0); [done..|congruence].
Qed.

(** X21.  For a consistent store, the cache update after a rename, applied to
    the list the store serialises to and the record as
    [updateDomainRecord] left it, gives the list that the store serialises
    to afterwards. *)
Theorem domainsAfterUpdate_mirrors_store (domainId : string)
    (updates : Updates) (s s' : DomainsStore) (l : ref) (r' : DomainRecord) :
  consistent s ->
  updateDomainRecord domainId updates s = (Some l, s') ->
  heap s' !! l = Some r' ->
  serialize (records s') s'
  = domainsAfterUpdate r' (Some (serialize (records s) s)).
Proof.
  intros (Hwf & Hnd & Huniq) Hrun Hr'.
  assert (exists (i : nat) (r : DomainRecord) (f : DomainRecord -> DomainRecord),
            records s !! i = Some l /\ heap s !! l = Some r
            /\ id r = domainId /\ id (f r) = id r /\ r' = f r
            /\ s' = {| heap := alter f l (heap s); records := records s |}
            /\ forall (j : nat) (l' : ref) (x : DomainRecord),
                 records s !! j = Some l' -> (j < i)%nat ->
                 heap s !! l' = Some x -> id x <> domainId)
    as (i & r & f & Hi & Hr & Hid & Hidf & -> & -> & Hlt).
  { unfold updateDomainRecord in Hrun.
    destruct (findDomainById domainId s) as [l0|] eqn:Hfind; [|discriminate].
    pose proof Hfind as (i & Hi & Hp & Hlt)%find_Some.
    unfold test_at in Hp. destruct (heap s !! l0) as [r|] eqn:Hr; [|discriminate].
    apply bool_decide_eq_true in Hp.
    assert (forall (j : nat) (l' : ref) (x : DomainRecord),
              records s !! j = Some l' -> (j < i)%nat ->
              heap s !! l' = Some x -> id x <> domainId) as Hlt'.
    { intros j l' x Hj Hji Hx. specialize (Hlt j l' Hj Hji).
      unfold test_at in Hlt. rewrite Hx in Hlt.
      by apply bool_decide_eq_false in Hlt. }
    destruct (upd_domain_name updates) as [name|];
      injection Hrun as <- <-.
    - exists i, r, (rename name). simpl in Hr'.
      rewrite lookup_alter_eq, Hr in Hr'. injection Hr' as <-. done.
    - exists i, r, (fun x => x). rewrite Hr in Hr'. injection Hr' as <-.
      repeat split; try done. destruct s as [h rs]. simpl. f_equal.
      apply map_eq. intros k. destruct (decide (l0 = k)) as [->|Hne].
      + rewrite lookup_alter_eq. simpl in Hr. by rewrite Hr.
      + by rewrite lookup_alter_ne. }
  unfold serialize, domainsAfterUpdate. simpl.
  assert (forall l0, l0 ∈ records s ->
            is_Some (alter f l (heap s) !! l0)) as Hwf'.
  { intros l0 Hl0. rewrite lookup_alter_is_Some. by apply Hwf. }
  assert (omap (fun l0 => heap s !! l0) (records s) !! i = Some r) as Hir.
  { rewrite serialize_lookup by done. by rewrite Hi. }
  assert (findIndexOf (fun item => id item = id (f r))
            (omap (fun l0 => heap s !! l0) (records s)) = Z.of_nat i) as ->.
  { destruct (findIndexOf_cases (fun item => id item = id (f r))
                (omap (fun l0 => heap s !! l0) (records s)))
      as [[_ Hnone]|(k & x & -> & Hk & Hx & Hfirst)].
    - rewrite Forall_forall in Hnone. exfalso. apply (Hnone r); [|done].
      apply list_elem_of_lookup. eauto.
    - f_equal. destruct (lt_eq_lt_dec k i) as [[Hki| ->]|Hik]; [|done|].
      + exfalso. rewrite serialize_lookup in Hk by done.
        destruct (records s !! k) as [lk|] eqn:Hlk; [|discriminate].
        simpl in Hk. apply (Hlt k lk x Hlk Hki Hk). congruence.
      + exfalso. by apply (Hfirst i r). }
  replace (0 <=? Z.of_nat i) with true by (symmetry; apply Z.leb_le; lia).
  rewrite Nat2Z.id. apply list_eq. intros j.
  rewrite serialize_lookup by done.
  destruct (decide (j = i)) as [->|Hji].
  - rewrite list_lookup_insert_eq by (by eapply lookup_lt_Some).
    rewrite Hi. simpl. by rewrite lookup_alter_eq, Hr.
  - rewrite list_lookup_insert_ne by done. rewrite serialize_lookup by done.
    destruct (records s !! j) as [lj|] eqn:Hlj; [|reflexivity]. simpl.
    rewrite lookup_alter_ne; [reflexivity|].
    intros <-. apply Hji. by apply (NoDup_lookup (records s) j i l).
Qed.

(** ** The header and the profile page *)

Lemma or_else_nonempty (a : option string) (b : string) :
  b <> "" -> or_else a b <> "".
Proof. intros Hb. by destruct a as [[|c s]|]. Qed.

(** X23.  The display name of the header is never empty, and it is the trimmed
    [display_name] of the profile whenever that is not blank. *)
Theorem displayName_nonempty (profile : option ProfileResponse)
    (isAppRoute isFetching : bool) :
  displayName profile isAppRoute isFetching <> ""
  /\ (forall (p : ProfileResponse) (name : string),
        profile = Some p -> display_name p = Some name -> trim name <> "" ->
        displayName profile isAppRoute isFetching = trim name).
Proof.
  split.
  - destruct profile as [p|]; unfold displayName.
    + do 2 apply or_else_nonempty. by apply or_else_nonempty.
    + by destruct (isAppRoute && isFetching).
  - intros p name -> Hname Hne. unfold displayName. rewrite Hname. simpl.
    by destruct (trim name).
Qed.

(** X24.  The password score lies between 0 and 5, is at least 1 for every
    non-empty password and at most 4 for one shorter than eight code units;
    the label is [Strong] exactly for scores of 4 and 5. *)
Theorem calculatePasswordStrength_bounds (password : string) :
  0 <= calculatePasswordStrength password <= 5
  /\ (password <> "" -> 1 <= calculatePasswordStrength password)
  /\ ((String.length password < 8)%nat ->
      calculatePasswordStrength password <= 4)
  /\ (strengthLabel (calculatePasswordStrength password) = "Strong"
      <-> 4 <= calculatePasswordStrength password).
Proof.
  assert (password <> "" ->
          test_class isUpperAZ password = false ->
          test_class isLowerAZ password = false ->
          test_class isDigit password = false ->
          test_class (fun c => negb (isUpperAZ c || isLowerAZ c || isDigit c))
            password = true) as Hother.
  { destruct password as [|c s]; [done|]. simpl. intros _.
    intros [Hu _]%orb_false_elim [Hl _]%orb_false_elim [Hd _]%orb_false_elim.
    by rewrite Hu, Hl, Hd. }
  assert (forall n : Z, 0 <= n <= 5 ->
            strengthLabel n = "Strong" <-> 4 <= n) as Hlabel.
  { intros n Hn. unfold strengthLabel.
    destruct (n <=? 2) eqn:H2; [apply Z.leb_le in H2; split; [done|lia]|].
    apply Z.leb_gt in H2.
    destruct (n =? 3) eqn:H3; [apply Z.eqb_eq in H3; split; [done|lia]|].
    apply Z.eqb_neq in H3. split; [lia|done]. }
  unfold calculatePasswordStrength.
  destruct (8 <=? String.length password)%nat eqn:Hlen;
    [apply Nat.leb_le in Hlen|apply Nat.leb_gt in Hlen];
    destruct (test_class isUpperAZ password) eqn:Hu;
    destruct (test_class isLowerAZ password) eqn:Hl;
    destruct (test_class isDigit password) eqn:Hd;
    destruct (test_class
                (fun c => negb (isUpperAZ c || isLowerAZ c || isDigit c))
                password) eqn:Ho;
    cbv beta zeta iota;
    (split; [lia|]);
    (split; [intros Hne; try lia;
             specialize (Hother Hne eq_refl eq_refl eq_refl); congruence|]);
    (split; [intros; lia|]); apply Hlabel; lia.
Qed.

Lemma set_values_spec (values seen : list string) :
  NoDup (set_values seen values)
  /\ forall v, v ∈ set_values seen values <-> v ∈ values /\ v ∉ seen.
Proof.
  revert seen. induction values as [|v rest IH]; intros seen; simpl.
  - split; [constructor|]. intros v. rewrite elem_of_nil. tauto.
  - destruct (IH seen) as [Hnd Hin]. destruct (IH (v :: seen)) as [Hnd' Hin'].
    case_bool_decide as Hv.
    + split; [exact Hnd|]. intros w. rewrite Hin, elem_of_cons.
      split; [tauto|]. intros [[->|Hw] Hns]; [done|tauto].
    + split.
      * apply NoDup_cons. split; [|exact Hnd'].
        rewrite Hin'. rewrite elem_of_cons. tauto.
      * intros w. rewrite !elem_of_cons, Hin', elem_of_cons.
        destruct (decide (w = v)) as [->|Hne]; [tauto|tauto].
Qed.

(** X25.  The time zones offered have no duplicates, start with the profile's
    zone (the detected one when the profile has none), consist of that zone
    and the eleven common ones, and number 11 or 12. *)
Theorem getInitialTimezones_spec (profileTz : option string)
    (detected : string) :
  NoDup (getInitialTimezones profileTz detected)
  /\ getInitialTimezones profileTz detected !! 0%nat
     = Some (default detected profileTz)
  /\ (forall tz : string,
        tz ∈ getInitialTimezones profileTz detected
        <-> tz = default detected profileTz \/ tz ∈ COMMON_TIMEZONES)
  /\ length (getInitialTimezones profileTz detected)
     = (if bool_decide (default detected profileTz ∈ COMMON_TIMEZONES)
        then 11%nat else 12%nat).
Proof.
  unfold getInitialTimezones. set (tz := default detected profileTz).
  destruct (set_values_spec (tz :: COMMON_TIMEZONES) []) as [Hnd Hin].
  split; [exact Hnd|]. split; [reflexivity|]. split.
  - intros z. rewrite Hin, elem_of_cons, elem_of_nil. tauto.
  - change (set_values [] (tz :: COMMON_TIMEZONES))
      with (tz :: set_values [tz] COMMON_TIMEZONES).
    destruct (set_values_spec COMMON_TIMEZONES [tz]) as [Hnd1 Hin1].
    assert (NoDup COMMON_TIMEZONES) as Hcommon.
    { apply (bool_decide_unpack _). vm_compute. exact I. }
    assert (length COMMON_TIMEZONES = 11%nat) as Hlen by reflexivity.
    case_bool_decide as Htz.
    + assert (set_values [tz] COMMON_TIMEZONES ++ [tz] ≡ₚ COMMON_TIMEZONES) as Hp.
      { apply NoDup_Permutation; [|exact Hcommon|].
        - apply NoDup_app. split; [exact Hnd1|]. split; [|apply NoDup_singleton].
          intros z Hz%Hin1. rewrite list_elem_of_singleton in *. tauto.
        - intros z. rewrite elem_of_app, Hin1, !list_elem_of_singleton.
          destruct (decide (z = tz)) as [->|]; tauto. }
      apply Permutation_length in Hp. rewrite length_app, Hlen in Hp.
      change (length [tz]) with 1%nat in Hp.
      rewrite length_cons. clear -Hp. lia.
    + assert (set_values [tz] COMMON_TIMEZONES ≡ₚ COMMON_TIMEZONES) as Hp.
      { apply NoDup_Permutation; [exact Hnd1|exact Hcommon|].
        intros z. rewrite Hin1, list_elem_of_singleton.
        split; [tauto|]. intros Hz. split; [done|]. by intros ->. }
      apply Permutation_length in Hp. rewrite Hlen in Hp.
      rewrite length_cons. clear -Hp. lia.
Qed.

(** ** The further properties at concrete calls *)

Lemma sampleStore_consistent : consistent sampleStore.
Proof. apply initialStore_consistent; vm_compute; discriminate. Qed.

Lemma upsertDomain_then_findDomainById_witness :
  heap (snd (alloc sampleDomain sampleStore)) !! 3%nat = Some sampleDomain
  /\ findDomainById "dom_9"
       (upsertDomain 3%nat (snd (alloc sampleDomain sampleStore)))
     = Some 3%nat.
Proof.
  assert (heap (snd (alloc sampleDomain sampleStore)) !! 3%nat
          = Some sampleDomain) as Hd by (vm_compute; reflexivity).
  split; [exact Hd|].
  exact (proj1 (upsertDomain_then_findDomainById 3%nat sampleDomain _ Hd)).
Defined.

Lemma removeDomainRecord_removes_the_record_witness :
  consistent sampleStore
  /\ findDomainById "dom_2" (snd (removeDomainRecord "dom_2" sampleStore))
     = None.
Proof.
  split; [exact sampleStore_consistent|].
  exact (proj1 (removeDomainRecord_removes_the_record "dom_2" sampleStore
                  sampleStore_consistent)).
Defined.

Lemma updateDomainRecord_frame_witness :
  exists s' : DomainsStore,
    updateDomainRecord "dom_3" {| upd_domain_name := Some "staging.example" |}
      sampleStore = (Some 2%nat, s')
    /\ records s' = records sampleStore
    /\ forall l' : ref, l' <> 2%nat -> heap s' !! l' = heap sampleStore !! l'.
Proof.
  exists (snd (updateDomainRecord "dom_3"
                 {| upd_domain_name := Some "staging.example" |} sampleStore)).
  assert (updateDomainRecord "dom_3"
            {| upd_domain_name := Some "staging.example" |} sampleStore
          = (Some 2%nat,
             snd (updateDomainRecord "dom_3"
                    {| upd_domain_name := Some "staging.example" |}
                    sampleStore))) as Hrun by (vm_compute; reflexivity).
  split; [exact Hrun|].
  destruct (updateDomainRecord_frame _ _ _ _ _ Hrun) as (Hrec & Hframe & _).
  split; [exact Hrec | exact Hframe].
Defined.

Lemma findDomainByName_query_normalised_witness :
  toLowerCase (trim " Example.COM ") = toLowerCase (trim "example.com")
  /\ findDomainByName " Example.COM " sampleStore
     = findDomainByName "example.com" sampleStore.
Proof.
  assert (toLowerCase (trim " Example.COM ") = toLowerCase (trim "example.com"))
    as Heq by reflexivity.
  split; [exact Heq|].
  exact (findDomainByName_query_normalised _ _ sampleStore Heq).
Defined.

Lemma verifyDomainRecord_idempotent_witness :
  trim "shop.io" = "shop.io"
  /\ fst (verifyDomainRecord "shop.io" (sampleEnv "5")
            (snd (verifyDomainRecord "shop.io" (sampleEnv "4") sampleStore)))
     = fst (verifyDomainRecord "shop.io" (sampleEnv "4") sampleStore).
Proof.
  split; [reflexivity|].
  destruct (verifyDomainRecord_idempotent "shop.io" (sampleEnv "4")
              (sampleEnv "5") sampleStore
              (snd (verifyDomainRecord "shop.io" (sampleEnv "4") sampleStore))
              (fst (verifyDomainRecord "shop.io" (sampleEnv "4") sampleStore)))
    as (_ & _ & Hsame & _);
    [reflexivity | apply surjective_pairing | exact Hsame].
Defined.

Lemma verifyDomainRecord_untrimmed_name_repeats_witness :
  trim " shop.io " <> " shop.io "
  /\ findDomainByName " shop.io " sampleStore = None
  /\ length (records (snd (verifyDomainRecord " shop.io " (sampleEnv "5")
                             (snd (verifyDomainRecord " shop.io "
                                     (sampleEnv "4") sampleStore)))))
     = 5%nat.
Proof.
  assert (trim " shop.io " <> " shop.io ") as Htrim
    by (vm_compute; discriminate).
  assert (findDomainByName " shop.io " sampleStore = None) as Hfind
    by (vm_compute; reflexivity).
  split; [exact Htrim|]. split; [exact Hfind|].
  exact (proj2 (verifyDomainRecord_untrimmed_name_repeats " shop.io "
                  (sampleEnv "4") (sampleEnv "5") sampleStore Htrim Hfind)).
Defined.

Lemma consistent_apply_ops_witness :
  uids_fresh sampleOps sampleStore
  /\ consistent (apply_ops sampleOps sampleStore).
Proof.
  assert (uids_fresh sampleOps sampleStore) as Hfresh.
  { unfold sampleOps. cbn [uids_fresh uid_fresh].
    split; [|tauto]. intros _. apply findDomainById_None.
    vm_compute. reflexivity. }
  split; [exact Hfresh|].
  exact (consistent_apply_ops sampleOps sampleStore sampleStore_consistent
           Hfresh).
Defined.

Lemma verified_consistent_apply_ops_witness :
  Forall keeps_timestamp sampleOps
  /\ verified_consistent (apply_ops sampleOps sampleStore).
Proof.
  assert (Forall keeps_timestamp sampleOps) as Hops.
  { unfold sampleOps. repeat constructor.
    - discriminate.
    - intros [x Hx]. discriminate Hx. }
  split; [exact Hops|].
  exact (verified_consistent_apply_ops sampleOps _ _ _ _ _ Hops).
Defined.

Lemma verifyDomainMock_success_witness :
  verifyDomainMock sampleToken " Shop.io " sampleToken (sampleEnv "4")
    sampleStore
  = (inr 3%nat,
     snd (verifyDomainMock sampleToken " Shop.io " sampleToken (sampleEnv "4")
            sampleStore))
  /\ findDomainByName " Shop.io "
       (snd (verifyDomainMock sampleToken " Shop.io " sampleToken
               (sampleEnv "4") sampleStore))
     = Some 3%nat.
Proof.
  assert (verifyDomainMock sampleToken " Shop.io " sampleToken (sampleEnv "4")
            sampleStore
          = (inr 3%nat,
             snd (verifyDomainMock sampleToken " Shop.io " sampleToken
                    (sampleEnv "4") sampleStore))) as Hrun
    by (vm_compute; reflexivity).
  split; [exact Hrun|].
  exact (proj1 (verifyDomainMock_success sampleToken _ _ _ _ _ _ Hrun)).
Defined.

Lemma verifyDomainMock_twice_witness :
  verifyDomainMock sampleToken " Shop.io " sampleToken (sampleEnv "4")
    sampleStore
  = (inr 3%nat,
     snd (verifyDomainMock sampleToken " Shop.io " sampleToken (sampleEnv "4")
            sampleStore))
  /\ verifyDomainMock sampleToken " Shop.io " sampleToken (sampleEnv "5")
       (snd (verifyDomainMock sampleToken " Shop.io " sampleToken
               (sampleEnv "4") sampleStore))
     = (inl AlreadyVerified,
        snd (verifyDomainMock sampleToken " Shop.io " sampleToken
               (sampleEnv "4") sampleStore)).
Proof.
  assert (verifyDomainMock sampleToken " Shop.io " sampleToken (sampleEnv "4")
            sampleStore
          = (inr 3%nat,
             snd (verifyDomainMock sampleToken " Shop.io " sampleToken
                    (sampleEnv "4") sampleStore))) as Hrun
    by (vm_compute; reflexivity).
  split; [exact Hrun|].
  exact (verifyDomainMock_twice sampleToken _ _ _ (sampleEnv "5") _ _ _ Hrun).
Defined.

Lemma postVerifyHandler_missing_domain_witness :
  postVerifyHandler sampleToken
    (Some {| body_domain := None; body_token := Some "wrong-token" |})
    (sampleEnv "4") sampleStore
  = ({| resp_status := 400; resp_json := JsonMessage "Domain is required." |},
     sampleStore).
Proof.
  apply postVerifyHandler_missing_domain. reflexivity.
Defined.

Lemma postVerifyHandler_response_witness :
  resp_status
    (fst (postVerifyHandler sampleToken
            (Some {| body_domain := Some "example.com";
                     body_token := Some sampleToken |})
            (sampleEnv "4") sampleStore)) = 409
  /\ snd (postVerifyHandler sampleToken
            (Some {| body_domain := Some "example.com";
                     body_token := Some sampleToken |})
            (sampleEnv "4") sampleStore) = sampleStore.
Proof.
  destruct (postVerifyHandler_response sampleToken
              (Some {| body_domain := Some "example.com";
                       body_token := Some sampleToken |})
              (sampleEnv "4") sampleStore _ _ (surjective_pairing _))
    as [[H200 _]|(_ & _ & Hsame)].
  - vm_compute in H200. discriminate H200.
  - split; [vm_compute; reflexivity | exact Hsame].
Defined.

Lemma postVerifyHandler_then_getDomainsHandler_witness :
  exists (d : DomainRecord) (domains : list DomainRecord),
    resp_json
      (fst (postVerifyHandler sampleToken
              (Some {| body_domain := Some "shop.io";
                       body_token := Some sampleToken |})
              (sampleEnv "4") sampleStore)) = JsonDomain d
    /\ isVerified d = true
    /\ d ∈ domains.
Proof.
  destruct (postVerifyHandler_then_getDomainsHandler sampleToken
              (Some {| body_domain := Some "shop.io";
                       body_token := Some sampleToken |})
              (sampleEnv "4") sampleStore _ _ (surjective_pairing _))
    as (d & domains & Hjson & Hv & _ & Hin); [vm_compute; reflexivity|].
  exists d, domains. split; [exact Hjson|]. split; [exact Hv | exact Hin].
Defined.

Lemma verifyDomain_from_mock_witness :
  verifyDomain sampleToken sampleClient
    (fun s => (inl ThrownTypeError, s)) "shop.io" sampleToken (sampleEnv "4")
    sampleStore
  = (inr (FromMock 3%nat),
     snd (verifyDomain sampleToken sampleClient
            (fun s => (inl ThrownTypeError, s)) "shop.io" sampleToken
            (sampleEnv "4") sampleStore))
  /\ useMocks sampleClient = true.
Proof.
  assert (verifyDomain sampleToken sampleClient
            (fun s => (inl ThrownTypeError, s)) "shop.io" sampleToken
            (sampleEnv "4") sampleStore
          = (inr (FromMock 3%nat),
             snd (verifyDomain sampleToken sampleClient
                    (fun s => (inl ThrownTypeError, s)) "shop.io" sampleToken
                    (sampleEnv "4") sampleStore))) as Hrun
    by (vm_compute; reflexivity).
  split; [exact Hrun|].
  exact (proj1 (verifyDomain_from_mock sampleToken _ _ _ _ _ _ _ _ Hrun)).
Defined.

Lemma verifyDomain_rethrows_api_error_witness :
  status AlreadyVerified <> 404
  /\ verifyDomain sampleToken sampleClient
       (fun s => (inl (ThrownApiError AlreadyVerified), s)) "shop.io"
       sampleToken (sampleEnv "4") sampleStore
     = (inl (ThrownApiError AlreadyVerified), sampleStore).
Proof.
  assert (status AlreadyVerified <> 404) as Hstatus by discriminate.
  split; [exact Hstatus|].
  apply verifyDomain_rethrows_api_error;
    [right; reflexivity | reflexivity | exact Hstatus].
Defined.

Lemma handleDomainContinue_agrees_with_mock_witness :
  errorMessage
    (handleDomainContinue (serialize (records sampleStore) sampleStore)
       sampleModal) = None
  /\ modalStep
       (handleDomainContinue (serialize (records sampleStore) sampleStore)
          sampleModal) = StepDns.
Proof.
  assert (errorMessage
            (handleDomainContinue (serialize (records sampleStore) sampleStore)
               sampleModal) = None) as Hok by (vm_compute; reflexivity).
  split; [exact Hok|].
  exact (proj1 (handleDomainContinue_agrees_with_mock sampleToken sampleModal _
                  sampleStore (sampleEnv "4") eq_refl Hok)).
Defined.

Lemma domainsAfterRemove_mirrors_store_witness :
  consistent sampleStore
  /\ serialize (records (snd (removeDomainRecord "dom_2" sampleStore)))
       (snd (removeDomainRecord "dom_2" sampleStore))
     = domainsAfterRemove "dom_2"
         (Some (serialize (records sampleStore) sampleStore)).
Proof.
  split; [exact sampleStore_consistent|].
  exact (domainsAfterRemove_mirrors_store "dom_2" sampleStore
           sampleStore_consistent).
Defined.

Lemma domainsAfterUpdate_mirrors_store_witness :
  exists (s' : DomainsStore) (r' : DomainRecord),
    updateDomainRecord "dom_3" {| upd_domain_name := Some "staging.example" |}
      sampleStore = (Some 2%nat, s')
    /\ heap s' !! 2%nat = Some r'
    /\ serialize (records s') s'
       = domainsAfterUpdate r'
           (Some (serialize (records sampleStore) sampleStore)).
Proof.
  assert (updateDomainRecord "dom_3"
            {| upd_domain_name := Some "staging.example" |} sampleStore
          = (Some 2%nat,
             snd (updateDomainRecord "dom_3"
                    {| upd_domain_name := Some "staging.example" |}
                    sampleStore))) as Hrun by (vm_compute; reflexivity).
  eexists _, _. split; [exact Hrun|].
  assert (heap (snd (updateDomainRecord "dom_3"
                       {| upd_domain_name := Some "staging.example" |}
                       sampleStore)) !! 2%nat
          = Some (rename "staging.example"
                    (createDomainRecord "staging.myapp.io"
                       {| opt_verified := Some false; opt_scanCount := Some 0;
                          opt_lastScan := None |} (sampleEnv "3")))) as Hr'
    by (vm_compute; reflexivity).
  split; [exact Hr'|].
  exact (domainsAfterUpdate_mirrors_store _ _ _ _ _ _ sampleStore_consistent
           Hrun Hr').
Defined.
